(** * Portfolio optimisation service: a shallow embedding of [main.py]

    The service has two functions of its own, [optimize_markowitz_portfolio]
    and the endpoint [optimize_portfolio]; everything numerical is delegated
    to pandas, NumPy and SciPy.  The embedding follows that split:

    - a Python float is a binary64 value: a rational, NaN or one of the two
      infinities, and every arithmetic operation of the code rounds its
      exact result to the nearest binary64 value, ties to even ([fl]);
      signed zeros are not told apart;
    - exceptions are an inductive type and the two functions live in a small
      trace-and-exception monad, the trace recording log records, the read
      of the upload and each call of the SciPy solver;
    - the library calls ([DataFrame.mean], [DataFrame.cov], [minimize],
      [pd.read_csv], [bytes.decode], the reductions [np.sum], [np.dot] and
      [sum], whose results depend on the order in which the library adds,
      the values of the square root, the rendering of floats and of
      [HTTPException]) are the fields of the class [Runtime]; the module
      [Demo] gives instances to run examples on.

    The read of the upload is modelled as completing: a request cancelled
    while [await file.read()] is pending ends with [asyncio.CancelledError],
    which no handler of the endpoint takes, and is outside the model. *)

From Stdlib Require Import QArith ZArith List String Ascii Bool Lia Arith.
From Stdlib Require Import DecimalString Qabs Qpower Lqa.
Import ListNotations.
Local Open Scope string_scope.

(* ===================================================================== *)
(** ** Python floats *)
(* ===================================================================== *)

Module Np.

Local Open Scope Q_scope.

Inductive float : Type :=
| Fin (q : Q)
| NaN
| PInf
| NInf.

Definition is_nan (a : float) : bool :=
  match a with NaN => true | _ => false end.

(** The nearest integer, ties to the even one. *)
Definition rint (q : Q) : Z :=
  let n := Qnum q in
  let d := Zpos (Qden q) in
  let f := (n / d)%Z in
  let r := (n mod d)%Z in
  match (2 * r ?= d)%Z with
  | Lt => f
  | Gt => (f + 1)%Z
  | Eq => if Z.even f then f else (f + 1)%Z
  end.

Definition pow2 (e : Z) : Q := 2 ^ e.

(** The binary exponent of a positive rational: [2^e <= x < 2^(e+1)]. *)
Definition ilog2 (x : Q) : Z :=
  let e0 := (Z.log2 (Qnum x) - Z.log2 (Zpos (Qden x)))%Z in
  if Qle_bool (pow2 e0) x then e0 else (e0 - 1)%Z.

(** The exponent of the unit in the last place of binary64 at [x > 0]: 53
    significant bits, and [2^-1074] in the subnormal range. *)
Definition ulp_exponent (x : Q) : Z := Z.max (ilog2 x - 52) (-1074).

(** The multiple of the unit in the last place nearest to [x > 0], ties to
    the even multiple. *)
Definition nearest (x : Q) : Q :=
  let u := ulp_exponent x in
  inject_Z (rint (x * pow2 (- u))) * pow2 u.

(** Rounding of an exact result to binary64: to nearest, ties to even,
    overflowing to an infinity from [2^1024] on. *)
Definition fl (q : Q) : float :=
  match Qcompare q 0 with
  | Eq => Fin 0
  | Gt => let v := nearest q in
          if Qle_bool (pow2 1024) v then PInf else Fin (Qred v)
  | Lt => let v := nearest (- q) in
          if Qle_bool (pow2 1024) v then NInf else Fin (Qred (- v))
  end.

Definition fneg (a : float) : float :=
  match a with
  | Fin q => Fin (- q)
  | NaN => NaN
  | PInf => NInf
  | NInf => PInf
  end.

Definition fadd (a b : float) : float :=
  match a, b with
  | NaN, _ | _, NaN => NaN
  | Fin p, Fin q => fl (p + q)
  | PInf, NInf | NInf, PInf => NaN
  | PInf, _ | _, PInf => PInf
  | NInf, _ | _, NInf => NInf
  end.

Definition fsub (a b : float) : float := fadd a (fneg b).

(** Sign of an infinity scaled by the finite factor [q]; [inf * 0] is NaN. *)
Definition scale_inf (pos : bool) (q : Q) : float :=
  match Qcompare q 0 with
  | Eq => NaN
  | Gt => if pos then PInf else NInf
  | Lt => if pos then NInf else PInf
  end.

Definition fmul (a b : float) : float :=
  match a, b with
  | NaN, _ | _, NaN => NaN
  | Fin p, Fin q => fl (p * q)
  | PInf, Fin q | Fin q, PInf => scale_inf true q
  | NInf, Fin q | Fin q, NInf => scale_inf false q
  | PInf, PInf | NInf, NInf => PInf
  | PInf, NInf | NInf, PInf => NInf
  end.

(** Division as NumPy performs it: a finite value over zero is an infinity
    (NaN for [0/0]), nothing is raised. *)
Definition fdiv (a b : float) : float :=
  match a, b with
  | NaN, _ | _, NaN => NaN
  | Fin p, Fin q =>
      match Qcompare q 0 with
      | Eq => scale_inf true p
      | _ => fl (p / q)
      end
  | Fin _, _ => Fin 0
  | PInf, Fin q => match Qcompare q 0 with Lt => NInf | _ => PInf end
  | NInf, Fin q => match Qcompare q 0 with Lt => PInf | _ => NInf end
  | _, _ => NaN
  end.

Definition Qltb (p q : Q) : bool := negb (Qle_bool q p).

(** [a <= b]; every comparison with NaN is false. *)
Definition fle (a b : float) : bool :=
  match a, b with
  | NaN, _ | _, NaN => false
  | Fin p, Fin q => Qle_bool p q
  | NInf, _ => true
  | _, PInf => true
  | _, _ => false
  end.

(** [a < b]. *)
Definition flt (a b : float) : bool :=
  match a, b with
  | NaN, _ | _, NaN => false
  | Fin p, Fin q => Qltb p q
  | PInf, _ => false
  | _, NInf => false
  | _, _ => true
  end.

(** [a > b] is [b < a]. *)
Definition fgt (a b : float) : bool := flt b a.

Definition fabs (a : float) : float :=
  match a with
  | Fin q => Fin (Qabs q)
  | NaN => NaN
  | PInf | NInf => PInf
  end.

(** [np.rint]: the nearest integer, ties to the even one; the result is a
    binary64 value whenever the argument is. *)
Definition frint (a : float) : float :=
  match a with
  | Fin q => Fin (inject_Z (rint q))
  | other => other
  end.

(** [np.round(a, 4)], as NumPy computes it: the product [a * 10**4],
    rounded to binary64, is taken to the nearest integer and divided by
    [10**4], the quotient being rounded to binary64 again. *)
Definition np_round4 (a : float) : float :=
  fdiv (frint (fmul a (Fin 10000))) (Fin 10000).

(** The fill value of pandas' NaN-skipping sum: a NaN counts as [0.0]. *)
Definition nan_to_zero (a : float) : float :=
  match a with NaN => Fin 0 | other => other end.

(** Elementwise product of two arrays of the same length (the solver calls
    the functions of the problem on arrays of the length of the starting
    point). *)
Fixpoint np_mul (a b : list float) : list float :=
  match a, b with
  | x :: a', y :: b' => fmul x y :: np_mul a' b'
  | _, _ => []
  end.

(** [np.sqrt], given the square root [sqrt_real] on non-negative values: a
    negative argument yields NaN (NumPy warns, it does not raise). *)
Definition np_sqrt (sqrt_real : Q -> Q) (a : float) : float :=
  match a with
  | Fin q => if Qltb q 0 then NaN else Fin (sqrt_real q)
  | NaN => NaN
  | PInf => PInf
  | NInf => NaN
  end.

End Np.

Export Np.

(* ===================================================================== *)
(** ** Data model *)
(* ===================================================================== *)

(** A cell of the frame built by [pd.read_csv]: a float (integers included)
    or, in an [object] column, a string. *)
Inductive cell : Type :=
| CFloat (v : float)
| CStr (s : string).

(** [returns_df]: the column labels and the rows (the date index, column 0
    of the file, is not part of the data). *)
Record DataFrame : Type := {
  columns : list string;
  rows : list (list cell)
}.

(** [len(returns_df)]. *)
Definition len (df : DataFrame) : nat := List.length (rows df).

(** [np.isreal] on a cell: true on every float, NaN and the infinities
    included (their imaginary part is zero), false on a string. *)
Definition np_isreal (c : cell) : bool :=
  match c with
  | CFloat _ => true
  | CStr _ => false
  end.

(** [returns_df.applymap(np.isreal).all().all()]. *)
Definition all_isreal (df : DataFrame) : bool :=
  forallb (forallb np_isreal) (rows df).

(** A Python [dict] from ticker to weight; insertion order is kept. *)
Definition dict : Type := list (string * float).

(** [d[k] = v]: an existing key keeps its place and takes the new value. *)
Fixpoint dict_set (d : dict) (k : string) (v : float) : dict :=
  match d with
  | [] => [(k, v)]
  | (k', v') :: d' =>
      if String.eqb k' k then (k', v) :: d' else (k', v') :: dict_set d' k v
  end.

(** [d.values()]. *)
Definition dict_values (d : dict) : list float := map snd d.

(** [d.keys()]. *)
Definition dict_keys (d : dict) : list string := map fst d.

(** One entry of [constraints]: [{'type': ..., 'fun': ...}]. *)
Inductive constraint_type : Type := Ceq | Cineq.

Record constraint : Type := {
  ctype : constraint_type;
  cfun : list float -> float
}.

(** The arguments of [scipy.optimize.minimize] at its one call site. *)
Record MinimizeArgs : Type := {
  m_fun : list float -> float;
  m_x0 : list float;
  m_method : string;
  m_bounds : list (float * float);
  m_constraints : list constraint;
  m_disp : bool;
  m_maxiter : nat
}.

(** The fields of SciPy's [OptimizeResult] that the service reads. *)
Record OptimizeResult : Type := {
  res_x : list float;
  res_success : bool;
  res_message : string
}.

(** The JSON body [{"optimal_portfolio": optimal_portfolio}]. *)
Definition response : Type := list (string * dict).

(* ===================================================================== *)
(** ** Exceptions, log records and the monad *)
(* ===================================================================== *)

(** The exception classes the handlers tell apart.  [ValueError] stands for
    the class and its subclasses other than [ParserError]
    ([UnicodeDecodeError], pandas' [EmptyDataError]); [OtherError] for any
    other subclass of [Exception].  The classes that derive from
    [BaseException] only ([asyncio.CancelledError], [KeyboardInterrupt],
    [SystemExit]) are not modelled. *)
Inductive exn : Type :=
| HTTPException (status_code : nat) (detail : string)
| ParserError (msg : string)
| ValueError (msg : string)
| ZeroDivisionError (msg : string)
| OtherError (msg : string).

Inductive result (A : Type) : Type :=
| Ok (a : A)
| Raise (e : exn).

Arguments Ok {A} a.
Arguments Raise {A} e.

Inductive level : Type := INFO | WARNING | ERROR.

Inductive event : Type :=
| EvLog (lvl : level) (msg : string)
| EvFileRead
| EvMinimize (args : MinimizeArgs).

Definition is_minimize (ev : event) : bool :=
  match ev with EvMinimize _ => true | _ => false end.

Definition is_log (ev : event) : bool :=
  match ev with EvLog _ _ => true | _ => false end.

(** A computation: the events it produced, in order, and how it ended. *)
Definition M (A : Type) : Type := (list event * result A)%type.

Definition ret {A} (a : A) : M A := ([], Ok a).

Definition raise {A} (e : exn) : M A := ([], Raise e).

Definition bind {A B} (m : M A) (f : A -> M B) : M B :=
  match m with
  | (t, Ok a) => let (t', r) := f a in ((t ++ t')%list, r)
  | (t, Raise e) => (t, Raise e)
  end.

(** [try: m  except Exception as e: h e]. *)
Definition try_except {A} (m : M A) (h : exn -> M A) : M A :=
  match m with
  | (t, Ok a) => (t, Ok a)
  | (t, Raise e) => let (t', r) := h e in ((t ++ t')%list, r)
  end.

Definition emit (ev : event) : M unit := ([ev], Ok tt).

Definition lift {A} (r : result A) : M A := ([], r).

Definition trace {A} (m : M A) : list event := fst m.

Definition outcome {A} (m : M A) : result A := snd m.

Declare Scope py_scope.
Delimit Scope py_scope with py.
Notation "x <- m ;; k" := (bind m (fun x => k))
  (at level 61, m at next level, right associativity) : py_scope.
Notation "m ;;; k" := (bind m (fun _ => k))
  (at level 61, right associativity) : py_scope.

Definition logger_info (msg : string) : M unit := emit (EvLog INFO msg).
Definition logger_warning (msg : string) : M unit := emit (EvLog WARNING msg).
Definition logger_error (msg : string) : M unit := emit (EvLog ERROR msg).

(** [str(n)] for a non-negative [int]. *)
Definition str_nat (n : nat) : string := NilZero.string_of_uint (Nat.to_uint n).

(* ===================================================================== *)
(** ** The libraries the service calls *)
(* ===================================================================== *)

Class Runtime : Type := {
  (** [content.decode('utf-8')]; fails with a [UnicodeDecodeError], which is
      a [ValueError]. *)
  decode_utf8 : string -> result string;
  (** [pd.read_csv(StringIO(s), index_col=0, parse_dates=True)]. *)
  read_csv : string -> result DataFrame;
  (** [returns_df.mean()]. *)
  df_mean : DataFrame -> result (list float);
  (** [returns_df.cov()], as a list of rows. *)
  df_cov : DataFrame -> result (list (list float));
  (** [scipy.optimize.minimize]. *)
  minimize : MinimizeArgs -> result OptimizeResult;
  (** [np.sum] of a one-dimensional array of floats; NumPy adds in blocks,
      so the rounded result is the library's. *)
  np_sum : list float -> float;
  (** [np.dot] of two vectors. *)
  np_dot : list float -> list float -> float;
  (** [np.dot] of a matrix, given by its rows, and a vector. *)
  np_matvec : list (list float) -> list float -> list float;
  (** The built-in [sum] of a non-empty list of floats; CPython adds from
      left to right, since version 3.12 with a compensation term. *)
  py_sum : list float -> float;
  (** The square root of a non-negative value as NumPy computes it, a
      rational standing for the float it returns. *)
  sqrt_real : Q -> Q;
  (** [str] of a Python float, as an f-string renders it. *)
  str_float : float -> string;
  (** [str] of an [HTTPException] with the given status and detail. *)
  str_http_exception : nat -> string -> string
}.

(** Starlette's [HTTPException.__str__]: [f"{status_code}: {detail}"]. *)
Definition starlette_str (status_code : nat) (detail : string) : string :=
  str_nat status_code ++ ": " ++ detail.

(* ===================================================================== *)
(** ** The service *)
(* ===================================================================== *)

Section Service.

Context {RT : Runtime}.

Local Open Scope py_scope.

(** [str(e)]. *)
Definition str_exn (e : exn) : string :=
  match e with
  | HTTPException status_code detail => str_http_exception status_code detail
  | ParserError msg => msg
  | ValueError msg => msg
  | ZeroDivisionError msg => msg
  | OtherError msg => msg
  end.

(** [await file.read()], for a read that completes. *)
Definition file_read (file : string) : M string :=
  emit EvFileRead ;;; ret file.

(** The call [minimize(objective, initial_weights, ...)]. *)
Definition call_minimize (args : MinimizeArgs) : M OptimizeResult :=
  emit (EvMinimize args) ;;; lift (minimize args).

(** [np.sum] of a pandas [Series]: it is [Series.sum], which skips the NaN
    entries; pandas fills them with [0.0] and sums the array. *)
Definition series_sum (s : list float) : float :=
  np_sum (map nan_to_zero s).

(** [objective], closed over [mean_returns]:
    [-np.sum(mean_returns * weights)], the product being a [Series]. *)
Definition objective (mean_returns : list float) (weights : list float) : float :=
  fneg (series_sum (np_mul mean_returns weights)).

(** The argument of [np.sqrt] in [risk_constraint]:
    [np.dot(weights.T, np.dot(cov_matrix, weights))]. *)
Definition portfolio_variance (cov_matrix : list (list float))
    (weights : list float) : float :=
  np_dot weights (np_matvec cov_matrix weights).

(** [risk_constraint], closed over [cov_matrix] and [risk_level]. *)
Definition risk_constraint (cov_matrix : list (list float)) (risk_level : float)
    (weights : list float) : float :=
  let portfolio_volatility :=
    np_sqrt sqrt_real (portfolio_variance cov_matrix weights) in
  fsub risk_level portfolio_volatility.

(** [lambda x: np.sum(x) - 1]. *)
Definition sum_to_one (x : list float) : float := fsub (np_sum x) (Fin 1).

(** [1/n_assets] for [n_assets > 0]: the quotient of two integers, rounded
    to binary64. *)
Definition one_over (n_assets : nat) : float :=
  fdiv (Fin 1) (Fin (inject_Z (Z.of_nat n_assets))).

(** [np.array([1/n_assets] * n_assets)]; [1/0] raises. *)
Definition initial_point (n_assets : nat) : result (list float) :=
  match n_assets with
  | O => Raise (ZeroDivisionError "division by zero")
  | S _ => Ok (repeat (one_over n_assets) n_assets)
  end.

(** The arguments of the [minimize] call, lines 45 to 75. *)
Definition build_problem (mean_returns : list float)
    (cov_matrix : list (list float)) (n_assets : nat)
    (risk_level max_weight : float) (initial_weights : list float)
    : MinimizeArgs :=
  let constraints :=
    [ {| ctype := Ceq; cfun := sum_to_one |};
      {| ctype := Cineq; cfun := risk_constraint cov_matrix risk_level |} ] in
  let bounds := repeat (Fin 0, max_weight) n_assets in
  {| m_fun := objective mean_returns;
     m_x0 := initial_weights;
     m_method := "SLSQP";
     m_bounds := bounds;
     m_constraints := constraints;
     m_disp := false;
     m_maxiter := 1000 |}.

(** The threshold of the filter: the literal [0.0001]. *)
Definition small_weight : float := fl (1 # 10000).

(** The dict comprehension of lines 84 to 86: the tickers zipped with the
    rounded weights, an entry kept when the rounded weight is [> 0.0001]. *)
Definition optimal_portfolio_of (tickers : list string)
    (optimal_weights : list float) : dict :=
  fold_left
    (fun (d : dict) (tw : string * float) =>
       let (ticker, weight) := tw in
       if fgt weight small_weight then dict_set d ticker weight else d)
    (combine tickers (map np_round4 optimal_weights)) [].

(** [sum(optimal_portfolio.values())]; the sum of no values is the [int]
    0. *)
Definition weight_sum_of (optimal_portfolio : dict) : float :=
  match dict_values optimal_portfolio with
  | [] => Fin 0
  | values => py_sum values
  end.

(** [abs(weight_sum - 1.0) > 0.01], the difference rounded and [0.01] the
    literal. *)
Definition not_close_to_one (weight_sum : float) : bool :=
  fgt (fabs (fsub weight_sum (Fin 1))) (fl (1 # 100)).

(** [{weight_sum}] in the f-string: the sum of no values is the [int] 0. *)
Definition str_weight_sum (optimal_portfolio : dict) : string :=
  match optimal_portfolio with
  | [] => "0"
  | _ => str_float (weight_sum_of optimal_portfolio)
  end.

Definition optimize_markowitz_portfolio (returns_df : DataFrame)
    (risk_level max_weight : float) : M dict :=
  mean_returns <- lift (df_mean returns_df) ;;
  cov_matrix <- lift (df_cov returns_df) ;;
  let n_assets := List.length (columns returns_df) in
  initial_weights <- lift (initial_point n_assets) ;;
  try_except
    (result <- call_minimize
        (build_problem mean_returns cov_matrix n_assets risk_level max_weight
           initial_weights) ;;
     if negb (res_success result) then
       (logger_warning ("Optimization failed: " ++ res_message result) ;;;
        raise (ValueError ("Portfolio optimization did not converge: "
                           ++ res_message result)))
     else
       let optimal_weights := res_x result in
       let optimal_portfolio :=
         optimal_portfolio_of (columns returns_df) optimal_weights in
       let weight_sum := weight_sum_of optimal_portfolio in
       ((if not_close_to_one weight_sum then
           logger_warning ("Sum of weights (" ++ str_weight_sum optimal_portfolio
                           ++ ") is not close to 1.")
         else ret tt) ;;;
        ret optimal_portfolio))
    (fun e =>
       logger_error ("Error in optimization: " ++ str_exn e) ;;;
       raise (ValueError ("Failed to optimize portfolio: " ++ str_exn e))).

(** The [except] clauses of the endpoint, tried in order. *)
Definition endpoint_handler (e : exn) : M response :=
  match e with
  | ParserError _ =>
      raise (HTTPException 400 "Error al parsear el archivo CSV")
  | ValueError _ =>
      raise (HTTPException 400 (str_exn e))
  | _ =>
      logger_error ("Error inesperado: " ++ str_exn e) ;;;
      raise (HTTPException 500 ("Error en el servidor: " ++ str_exn e))
  end.

(** The body of the endpoint's [try], lines 124 to 145. *)
Definition optimize_portfolio_try (file : string) (risk_level max_weight : float)
    : M response :=
  content <- file_read file ;;
  content_str <- lift (decode_utf8 content) ;;
  returns_df <- lift (read_csv content_str) ;;
  if negb (all_isreal returns_df) then
    raise (HTTPException 400
             "El archivo debe contener solo valores numéricos")
  else if Nat.ltb (len returns_df) 30 then
    raise (HTTPException 400
             ("Se requieren al menos 30 días de datos, se recibieron "
              ++ str_nat (len returns_df)))
  else
    (logger_info ("Optimizando portafolio con "
                  ++ str_nat (List.length (columns returns_df))
                  ++ " activos y " ++ str_nat (len returns_df) ++ " días") ;;;
     optimal_portfolio <-
       optimize_markowitz_portfolio returns_df risk_level max_weight ;;
     ret [("optimal_portfolio", optimal_portfolio)]).

Definition optimize_portfolio (file : string) (risk_level max_weight : float)
    : M response :=
  if fle risk_level (Fin 0) then
    raise (HTTPException 400 "El nivel de riesgo debe ser positivo")
  else if fle max_weight (Fin 0) || fgt max_weight (Fin 1) then
    raise (HTTPException 400 "El peso máximo debe estar entre 0 y 1")
  else
    try_except (optimize_portfolio_try file risk_level max_weight)
               endpoint_handler.

End Service.

(* ===================================================================== *)
(** ** A concrete runtime, to run the service on examples *)
(* ===================================================================== *)

Module Demo.

Local Open Scope Q_scope.

(** Ticker number [i]: ["A0"], ["A1"], ... *)
Definition ticker (i : nat) : string := ("A" ++ str_nat i)%string.

Definition tickers (n : nat) : list string := map ticker (seq 0 n).

(** The finite value of a cell, if it has one. *)
Definition finite_value (c : cell) : option Q :=
  match c with
  | CFloat (Fin q) => Some q
  | _ => None
  end.

(** Column [j] of the frame. *)
Definition column (df : DataFrame) (j : nat) : list (option Q) :=
  map (fun row => match nth_error row j with
                  | Some c => finite_value c
                  | None => None
                  end) (rows df).

Definition Qsum (l : list Q) : Q := fold_right (fun x acc => Qred (x + acc)) 0 l.

(** Mean of the finite observations of a column (missing ones skipped),
    NaN when there is none; the exact mean, rounded once. *)
Definition column_mean (col : list (option Q)) : float :=
  let obs := flat_map (fun o => match o with Some q => [q] | None => [] end) col in
  match obs with
  | [] => NaN
  | _ => fl (Qred (Qsum obs / inject_Z (Z.of_nat (List.length obs))))
  end.

(** Sample covariance (denominator [m - 1]) over the rows where both
    columns have a finite observation; the exact value, rounded once. *)
Definition column_cov (a b : list (option Q)) : float :=
  let pairs := flat_map (fun ab => match ab with
                                   | (Some x, Some y) => [(x, y)]
                                   | _ => []
                                   end) (combine a b) in
  let m := List.length pairs in
  match m with
  | O | S O => NaN
  | _ =>
      let ma := Qred (Qsum (map fst pairs) / inject_Z (Z.of_nat m)) in
      let mb := Qred (Qsum (map snd pairs) / inject_Z (Z.of_nat m)) in
      fl (Qred (Qsum (map (fun xy => Qred ((fst xy - ma) * (snd xy - mb))) pairs)
                / inject_Z (Z.of_nat (m - 1))))
  end.

Definition frame_mean (df : DataFrame) : list float :=
  map (fun j => column_mean (column df j)) (seq 0 (List.length (columns df))).

Definition frame_cov (df : DataFrame) : list (list float) :=
  let cols := map (column df) (seq 0 (List.length (columns df))) in
  map (fun a => map (fun b => column_cov a b) cols) cols.

(** A rational square root, exact on squares of multiples of [10^-6]. *)
Definition sqrt_approx (q : Q) : Q :=
  Z.sqrt ((Qnum q * 1000000000000) / Zpos (Qden q)) # 1000000.

(** A sum that adds from left to right, rounding each partial sum: what
    [np.sum] does on fewer than eight values and what the built-in [sum]
    did before CPython 3.12. *)
Definition sequential_sum (l : list float) : float := fold_left fadd l (Fin 0).

Definition sequential_dot (a b : list float) : float :=
  sequential_sum (np_mul a b).

Definition sequential_matvec (m : list (list float)) (v : list float)
    : list float :=
  map (fun row => sequential_dot row v) m.

(** A runtime in which every upload parses to [frame] and the solver answers
    as [solver] does. *)
Definition runtime (frame : DataFrame)
    (solver : MinimizeArgs -> result OptimizeResult) : Runtime :=
  {| decode_utf8 := fun s => Ok s;
     read_csv := fun _ => Ok frame;
     df_mean := fun df => Ok (frame_mean df);
     df_cov := fun df => Ok (frame_cov df);
     minimize := solver;
     np_sum := sequential_sum;
     np_dot := sequential_dot;
     np_matvec := sequential_matvec;
     py_sum := sequential_sum;
     sqrt_real := sqrt_approx;
     str_float := fun _ => "<float>"%string;
     str_http_exception := starlette_str |}.

(** Ten days of two assets, the second column holding text. *)
Definition short_text_frame : DataFrame :=
  {| columns := tickers 2;
     rows := [CFloat (Fin 0); CStr "abc"]
             :: repeat [CFloat (Fin 0); CStr "0.0"] 9 |}.

(** Thirty days of two assets, one observation missing. *)
Definition nan_frame : DataFrame :=
  {| columns := tickers 2;
     rows := [CFloat (Fin 0); CFloat NaN]
             :: repeat [CFloat (Fin 0); CFloat (Fin 0)] 29 |}.

(** A frame of [m] days and [n] assets with the same return, the float
    nearest to [r], everywhere. *)
Definition constant_frame (m n : nat) (r : Q) : DataFrame :=
  {| columns := tickers n;
     rows := repeat (repeat (CFloat (fl r)) n) m |}.

(** Thirty days of two assets, the second column empty: every cell of it
    is NaN. *)
Definition empty_column_frame : DataFrame :=
  {| columns := tickers 2;
     rows := repeat [CFloat (fl (1 # 100)); CFloat NaN] 30 |}.

(** A solver that accepts its starting point: what SLSQP does when the
    starting point is feasible and the objective is flat. *)
Definition solver_at_start (args : MinimizeArgs) : result OptimizeResult :=
  Ok {| res_x := m_x0 args;
        res_success := true;
        res_message := "Optimization terminated successfully" |}.



(** A solver that gives up with the given status message. *)
Definition solver_failing (message : string) (args : MinimizeArgs)
    : result OptimizeResult :=
  Ok {| res_x := m_x0 args;
        res_success := false;
        res_message := message |}.

(** A solver that succeeds at the given point, each coordinate the float
    nearest to the given decimal. *)
Definition solver_returning (x : list Q) (args : MinimizeArgs)
    : result OptimizeResult :=
  Ok {| res_x := map fl x;
        res_success := true;
        res_message := "Optimization terminated successfully" |}.

(** Two assets that never move over thirty days, a solver that stalls. *)
Definition stalled : Runtime :=
  runtime (constant_frame 30 2 0)
          (solver_failing "Positive directional derivative for linesearch").

(** The same market, a solver that stops at its starting point. *)
Definition flat2 : Runtime := runtime (constant_frame 30 2 0) solver_at_start.

(** Ten days only. *)
Definition short : Runtime := runtime (constant_frame 10 2 0) solver_at_start.

(** Ten days, one column of text. *)
Definition short_text : Runtime := runtime short_text_frame solver_at_start.

(** Thirty days, one observation missing. *)
Definition with_nan : Runtime := runtime nan_frame solver_at_start.

(** The upload of the examples; the runtimes above parse every upload to
    their frame. *)
Definition upload : string := "returns.csv".

(** A symmetric matrix with unit diagonal that is not positive
    semi-definite: its quadratic form is negative at equal weights.  A
    sample covariance matrix is positive semi-definite in exact arithmetic;
    one estimated in binary64 from nearly opposite assets need not be. *)
Definition rounded_cov : list (list float) :=
  [ [Fin 1; fl (- (10000001 # 10000000))];
    [fl (- (10000001 # 10000000)); Fin 1] ].

(** Thirty days of two assets, the first earning 1% a day, the second
    nothing; the best portfolio under a cap of [0.9999] on each weight puts
    [0.9999] on the first asset and [0.0001] on the second. *)
Definition winner_frame : DataFrame :=
  {| columns := tickers 2;
     rows := repeat [CFloat (fl (1 # 100)); CFloat (Fin 0)] 30 |}.

Definition winner : Runtime :=
  runtime winner_frame (solver_returning [9999 # 10000; 1 # 10000]).


(** Thirty days of a frame without any asset column. *)
Definition no_assets : Runtime := runtime (constant_frame 30 0 0) solver_at_start.

(** [n] assets that never move over thirty days, with the statistics of
    such a frame (every mean and every covariance is zero) and a solver that
    stops at its starting point. *)
Definition still (n : nat) : Runtime :=
  {| decode_utf8 := fun s => Ok s;
     read_csv := fun _ => Ok (constant_frame 30 n 0);
     df_mean := fun df => Ok (repeat (Fin 0) (List.length (columns df)));
     df_cov := fun df =>
       Ok (repeat (repeat (Fin 0) (List.length (columns df)))
                  (List.length (columns df)));
     minimize := solver_at_start;
     np_sum := sequential_sum;
     np_dot := sequential_dot;
     np_matvec := sequential_matvec;
     py_sum := sequential_sum;
     sqrt_real := sqrt_approx;
     str_float := fun _ => "<float>"%string;
     str_http_exception := starlette_str |}.


(** 220 assets that never move. *)
Definition flat220 : Runtime := still 220.

(** Thirty days, the second column empty. *)
Definition empty_column : Runtime := runtime empty_column_frame solver_at_start.


(** The cap [0.66666] reached by the first asset. *)
Definition capped : Runtime :=
  runtime winner_frame (solver_returning [66666 # 100000; 33334 # 100000]).

(** What an example shows of an event: of a solver call, the starting
    point and the bounds. *)
Inductive shown : Type :=
| SLog (lvl : level) (msg : string)
| SFileRead
| SMinimize (x0 : list float) (bounds : list (float * float)).

Definition show (ev : event) : shown :=
  match ev with
  | EvLog lvl msg => SLog lvl msg
  | EvFileRead => SFileRead
  | EvMinimize args => SMinimize (m_x0 args) (m_bounds args)
  end.

(** The run of a computation, as an example shows it. *)
Definition run {A} (m : M A) : list shown * result A :=
  (map show (trace m), outcome m).

End Demo.



(* ===================================================================== *)
(** ** The failures of the specification's taxonomy, as the code raises them *)
(* ===================================================================== *)

Definition InvalidRiskLevelError : exn :=
  HTTPException 400 "El nivel de riesgo debe ser positivo".

Definition InvalidWeightBoundError : exn :=
  HTTPException 400 "El peso máximo debe estar entre 0 y 1".

Definition NonNumericInputError : exn :=
  HTTPException 400 "El archivo debe contener solo valores numéricos".

Definition InsufficientDataError (received : nat) : exn :=
  HTTPException 400
    ("Se requieren al menos 30 días de datos, se recibieron " ++ str_nat received).

(** The failure of a run whose solver stopped with status [message]. *)
Definition non_convergence_detail (message : string) : string :=
  "Failed to optimize portfolio: Portfolio optimization did not converge: "
  ++ message.




(** The frame holds a value that is not a number: a cell of text. *)
Definition has_text (df : DataFrame) : Prop :=
  exists row t, In row (rows df) /\ In (CStr t) row.

(** [n * max_weight < 1] for [n] assets, as a comparison of real
    numbers. *)
Definition bounds_infeasible (n : nat) (max_weight : float) : bool :=
  match max_weight with
  | Fin q => Qltb (inject_Z (Z.of_nat n) * q) 1
  | NInf => Nat.ltb 0 n
  | NaN | PInf => false
  end.

(** Some solver call among the events. *)
Definition attempts_optimization (t : list event) : bool :=
  existsb is_minimize t.

(** No solver call among the events. *)
Definition no_optimization (t : list event) : Prop :=
  Forall (fun ev => is_minimize ev = false) t.

(** Two floats denote the same value. *)
Definition float_eq (a b : float) : Prop :=
  match a, b with
  | Fin p, Fin q => Qeq p q
  | NaN, NaN | PInf, PInf | NInf, NInf => True
  | _, _ => False
  end.

(** The argument of the root clamped at zero, as the specification asks:
    [max(a, 0)]. *)
Definition clamp_at_zero (a : float) : float :=
  if flt a (Fin 0) then Fin 0 else a.

(* ===================================================================== *)
(** ** The runs of the two functions, spelled out *)
(* ===================================================================== *)

Section RunDefinitions.

Context {RT : Runtime}.

(** The starting point of [n] assets, [n > 0]. *)
Definition equal_weights (n : nat) : list float :=
  repeat (one_over n) n.

(** The problem the function hands to the solver. *)
Definition problem_of (mean_returns : list float) (cov_matrix : list (list float))
    (returns_df : DataFrame) (risk_level max_weight : float) : MinimizeArgs :=
  let n := List.length (columns returns_df) in
  build_problem mean_returns cov_matrix n risk_level max_weight (equal_weights n).

(** The events after the solver call of a converged run. *)
Definition sum_diagnostic (optimal_portfolio : dict) : list event :=
  if not_close_to_one (weight_sum_of optimal_portfolio) then
    [EvLog WARNING ("Sum of weights (" ++ str_weight_sum optimal_portfolio
                    ++ ") is not close to 1.")]
  else [].

(** What [optimize_markowitz_portfolio] does once the statistics are there
    and there is at least one asset, by the answer of the solver. *)
Definition after_solver (p : MinimizeArgs) (tickers : list string) : M dict :=
  match minimize p with
  | Ok r =>
      if res_success r then
        let d := optimal_portfolio_of tickers (res_x r) in
        ((EvMinimize p :: sum_diagnostic d)%list, Ok d)
      else
        ([EvMinimize p;
          EvLog WARNING ("Optimization failed: " ++ res_message r);
          EvLog ERROR ("Error in optimization: "
                       ++ "Portfolio optimization did not converge: "
                       ++ res_message r)],
         Raise (ValueError (non_convergence_detail (res_message r))))
  | Raise e =>
      ([EvMinimize p; EvLog ERROR ("Error in optimization: " ++ str_exn e)],
       Raise (ValueError ("Failed to optimize portfolio: " ++ str_exn e)))
  end.

(** The run of the body of the endpoint's [try], once the upload has been
    decoded and parsed. *)
Definition try_run (df : DataFrame) (rl mw : float) : M response :=
  if negb (all_isreal df) then ([EvFileRead], Raise NonNumericInputError)
  else if Nat.ltb (len df) 30 then
    ([EvFileRead], Raise (InsufficientDataError (len df)))
  else
    let (t, r) := optimize_markowitz_portfolio df rl mw in
    ((EvFileRead
        :: EvLog INFO ("Optimizando portafolio con "
                       ++ str_nat (List.length (columns df))
                       ++ " activos y " ++ str_nat (len df) ++ " días")
        :: t)%list,
     match r with
     | Ok d => Ok [("optimal_portfolio", d)]
     | Raise e => Raise e
     end).

(** The entries the dict comprehension keeps, in the order of the columns:
    the tickers paired with the rounded weights, those [> 0.0001]. *)
Definition retained_entries (tickers : list string)
    (optimal_weights : list float) : dict :=
  filter (fun tw => fgt (snd tw) small_weight)
         (combine tickers (map np_round4 optimal_weights)).

(** The objective in the words of the specification: minus the sum of all
    the products [mean_i * w_i], a NaN among them making the sum NaN. *)
Definition objective_as_specified (mean_returns weights : list float) : float :=
  fneg (np_sum (np_mul mean_returns weights)).

(** The risk constraint in the words of the specification: the argument
    of the root is clamped at zero before the root is taken. *)
Definition risk_constraint_clamped (cov_matrix : list (list float))
    (risk_level : float) (weights : list float) : float :=
  fsub risk_level
       (np_sqrt sqrt_real (clamp_at_zero (portfolio_variance cov_matrix weights))).

(** The [INFO] record written before the function is called. *)
Definition optimizing_record (df : DataFrame) : event :=
  EvLog INFO ("Optimizando portafolio con "
              ++ str_nat (List.length (columns df))
              ++ " activos y " ++ str_nat (len df) ++ " días").

(** The answer of the endpoint to the end of the function's run. *)
Definition endpoint_answer (r : result dict) : result response :=
  match r with
  | Ok d => Ok [("optimal_portfolio", d)]
  | Raise e => Raise (HTTPException 400 (str_exn e))
  end.

End RunDefinitions.

(* ===================================================================== *)
(** ** The weights around the threshold of the filter *)
(* ===================================================================== *)

(** The float nearest to [0.00015]; it lies below [0.00015]. *)
Definition last_dropped : float := fl (15 # 100000).

(** The float that follows it, one unit in the last place ([2^-65])
    above. *)
Definition first_kept : float :=
  match last_dropped with
  | Fin q => Fin (Qred (q + pow2 (-65)))
  | other => other
  end.

(** The value of a finite float. *)
Definition value_of (a : float) : Q :=
  match a with Fin q => q | _ => 0%Q end.

(** A value of binary64 that is not NaN: the rounding of some real number
    (every finite float is the rounding of itself). *)
Definition is_rounded (w : float) : Prop := exists q : Q, float_eq (fl q) w.

(* ===================================================================== *)
(** ** Further definitions: the welcome endpoint, loading, counting *)
(* ===================================================================== *)

(** [root]: the body of [GET /]. *)
Definition root : list (string * string) :=
  [("message", "Bienvenido al servicio de optimización de portafolios")].

(** The exceptions the last handler of the endpoint takes: neither a
    [ParserError] nor a [ValueError]. *)
Definition unexpected (e : exn) : bool :=
  match e with
  | ParserError _ | ValueError _ => false
  | _ => true
  end.

Definition is_file_read (ev : event) : bool :=
  match ev with EvFileRead => true | _ => false end.

Section Loading.

Context {RT : Runtime}.

(** Decoding the upload, or parsing the decoded text, raises [e]. *)
Definition load_fails (file : string) (e : exn) : Prop :=
  decode_utf8 file = Raise e \/
  exists s, decode_utf8 file = Ok s /\ read_csv s = Raise e.

(** [returns_df.mean()] or, after it, [returns_df.cov()] raises [e]. *)
Definition statistics_fail (df : DataFrame) (e : exn) : Prop :=
  df_mean df = Raise e \/
  exists mean, df_mean df = Ok mean /\ df_cov df = Raise e.

End Loading.

(** The parameters the endpoint accepts: a risk level that is not [<= 0]
    and a weight bound that is neither [<= 0] nor [> 1]. *)
Definition accepted (risk_level max_weight : float) : bool :=
  negb (fle risk_level (Fin 0))
  && negb (fle max_weight (Fin 0) || fgt max_weight (Fin 1)).

(** The events of a request whose parameters were accepted: the read of the
    upload, then log records only; or the read, the [INFO] record, one call
    of the solver, then log records only. *)
Definition read_then_logged (t : list event) : Prop :=
  (exists logs,
     t = EvFileRead :: logs /\ Forall (fun ev => is_log ev = true) logs) \/
  (exists record p logs,
     t = EvFileRead :: EvLog INFO record :: EvMinimize p :: logs /\
     Forall (fun ev => is_log ev = true) logs).

(** The risk levels and weight bounds that pass the parameter checks. *)
Definition passes_risk_check (risk_level : float) : Prop :=
  risk_level = NaN \/ risk_level = PInf \/
  exists q, risk_level = Fin q /\ (0 < q)%Q.

Definition passes_weight_check (max_weight : float) : Prop :=
  max_weight = NaN \/ exists q, max_weight = Fin q /\ (0 < q <= 1)%Q.

(* ===================================================================== *)
(** ** Runtimes in which a library call fails *)
(* ===================================================================== *)

Module Broken.

(** Every upload decodes, and parsing it raises [e]. *)
Definition unreadable (e : exn) : Runtime :=
  {| decode_utf8 := fun s => Ok s;
     read_csv := fun _ => Raise e;
     df_mean := fun df => Ok (Demo.frame_mean df);
     df_cov := fun df => Ok (Demo.frame_cov df);
     minimize := Demo.solver_at_start;
     np_sum := Demo.sequential_sum;
     np_dot := Demo.sequential_dot;
     np_matvec := Demo.sequential_matvec;
     py_sum := Demo.sequential_sum;
     sqrt_real := Demo.sqrt_approx;
     str_float := fun _ => "<float>";
     str_http_exception := starlette_str |}.

(** Two flat assets over thirty days; [returns_df.cov()] raises [e]. *)
Definition no_covariance (e : exn) : Runtime :=
  {| decode_utf8 := fun s => Ok s;
     read_csv := fun _ => Ok (Demo.constant_frame 30 2 0);
     df_mean := fun df => Ok (Demo.frame_mean df);
     df_cov := fun _ => Raise e;
     minimize := Demo.solver_at_start;
     np_sum := Demo.sequential_sum;
     np_dot := Demo.sequential_dot;
     np_matvec := Demo.sequential_matvec;
     py_sum := Demo.sequential_sum;
     sqrt_real := Demo.sqrt_approx;
     str_float := fun _ => "<float>";
     str_http_exception := starlette_str |}.

(** Two flat assets over thirty days; the solver raises [e]. *)
Definition solver_raising (e : exn) : Runtime :=
  Demo.runtime (Demo.constant_frame 30 2 0) (fun _ => Raise e).

(** Two flat assets; the solver converges on two negligible weights. *)
Definition negligible : Runtime :=
  Demo.runtime (Demo.constant_frame 30 2 0)
               (Demo.solver_returning [1 # 20000; 1 # 20000]).

End Broken.

(** [max_weight] is not in (0, 1]: what [InvalidWeightBoundError] is
    for. *)
Definition outside_unit_interval (max_weight : float) : bool :=
  negb (flt (Fin 0) max_weight && fle max_weight (Fin 1)).

(* ===================================================================== *)
(** ** Properties of the runs *)
(* ===================================================================== *)

Section Runs.

Context {RT : Runtime}.

Lemma initial_point_pos (n : nat) :
  n <> O -> initial_point n = Ok (equal_weights n).
Proof.
  destruct n as [|k]; [congruence | reflexivity].
Qed.

Lemma markowitz_run (df : DataFrame) (rl mw : float) mean cov :
  df_mean df = Ok mean ->
  df_cov df = Ok cov ->
  columns df <> [] ->
  optimize_markowitz_portfolio df rl mw
  = after_solver (problem_of mean cov df rl mw) (columns df).
Proof.
  intros Hm Hc Hn.
  unfold optimize_markowitz_portfolio, after_solver, problem_of.
  rewrite Hm, Hc. cbn [lift bind].
  rewrite initial_point_pos by (destruct (columns df); simpl; congruence).
  cbn [lift bind app].
  unfold call_minimize, emit, lift, bind.
  destruct (minimize _) as [r|e]; cbn [try_except].
  - destruct (res_success r); cbn [negb].
    + unfold sum_diagnostic.
      destruct (not_close_to_one _); reflexivity.
    + reflexivity.
  - reflexivity.
Qed.


(** Where a solver call in the trace of the function comes from. *)
Lemma markowitz_minimize_inv (df : DataFrame) (rl mw : float) args :
  In (EvMinimize args) (trace (optimize_markowitz_portfolio df rl mw)) ->
  exists mean cov,
    df_mean df = Ok mean /\ df_cov df = Ok cov /\ columns df <> [] /\
    args = problem_of mean cov df rl mw.
Proof.
  intros Hin.
  destruct (df_mean df) as [mean|e1] eqn:Hm.
  2:{ unfold optimize_markowitz_portfolio in Hin. rewrite Hm in Hin.
      simpl in Hin. contradiction. }
  destruct (df_cov df) as [cov|e2] eqn:Hc.
  2:{ unfold optimize_markowitz_portfolio in Hin. rewrite Hm, Hc in Hin.
      simpl in Hin. contradiction. }
  destruct (columns df) as [|c cs] eqn:Hcols.
  { unfold optimize_markowitz_portfolio in Hin. rewrite Hm, Hc, Hcols in Hin.
    simpl in Hin. contradiction. }
  assert (Hne : columns df <> []) by (rewrite Hcols; discriminate).
  exists mean, cov. split; [reflexivity|]. split; [reflexivity|].
  split; [discriminate|].
  rewrite (markowitz_run df rl mw mean cov Hm Hc Hne) in Hin.
  unfold after_solver in Hin.
  destruct (minimize _) as [r|e]; [destruct (res_success r)|];
    cbn [trace fst] in Hin.
  - destruct Hin as [Heq|Hin]; [now inversion Heq|].
    unfold sum_diagnostic in Hin.
    destruct (not_close_to_one _); simpl in Hin;
      [destruct Hin as [Hd|[]]; discriminate Hd | contradiction].
  - simpl in Hin.
    destruct Hin as [Heq|[Hd|[Hd|[]]]]; [now inversion Heq| |]; discriminate Hd.
  - simpl in Hin.
    destruct Hin as [Heq|[Hd|[]]]; [now inversion Heq|]; discriminate Hd.
Qed.

Lemma try_parsed (file : string) (rl mw : float) s df :
  decode_utf8 file = Ok s ->
  read_csv s = Ok df ->
  optimize_portfolio_try file rl mw = try_run df rl mw.
Proof.
  intros Hd Hr.
  unfold optimize_portfolio_try, try_run, file_read, emit.
  cbn [bind ret app]. rewrite Hd. cbn [lift bind app]. rewrite Hr.
  cbn [lift bind app].
  destruct (all_isreal df); cbn [negb]; [|reflexivity].
  destruct (Nat.ltb (len df) 30); [reflexivity|].
  unfold logger_info, emit. cbn [bind app].
  destruct (optimize_markowitz_portfolio df rl mw) as [t [d|e]];
    cbn [bind ret app]; rewrite ?app_nil_r; reflexivity.
Qed.

Lemma endpoint_validated (file : string) (rl mw : float) :
  fle rl (Fin 0) = false ->
  fle mw (Fin 0) || fgt mw (Fin 1) = false ->
  optimize_portfolio file rl mw
  = try_except (optimize_portfolio_try file rl mw) endpoint_handler.
Proof.
  intros H1 H2. unfold optimize_portfolio. now rewrite H1, H2.
Qed.


Lemma endpoint_parsed (file : string) (rl mw : float) s df :
  fle rl (Fin 0) = false ->
  fle mw (Fin 0) || fgt mw (Fin 1) = false ->
  decode_utf8 file = Ok s ->
  read_csv s = Ok df ->
  optimize_portfolio file rl mw = try_except (try_run df rl mw) endpoint_handler.
Proof.
  intros H1 H2 Hd Hr.
  rewrite endpoint_validated by assumption.
  now rewrite (try_parsed file rl mw s df Hd Hr).
Qed.

(** The handlers of the endpoint log and raise; they never call the solver. *)
Lemma endpoint_handler_trace (e : exn) :
  Forall (fun ev => is_minimize ev = false) (trace (endpoint_handler e)).
Proof.
  destruct e; cbn; repeat constructor.
Qed.

Lemma endpoint_handler_raises (e : exn) :
  exists status_code detail,
    outcome (endpoint_handler e) = Raise (HTTPException status_code detail).
Proof.
  destruct e; cbn; eauto.
Qed.

Lemma no_optimization_app (t1 t2 : list event) :
  no_optimization t1 -> no_optimization t2 -> no_optimization (t1 ++ t2).
Proof.
  unfold no_optimization. intros H1 H2. apply Forall_app. now split.
Qed.

Lemma no_optimization_not_in (t : list event) args :
  no_optimization t -> ~ In (EvMinimize args) t.
Proof.
  unfold no_optimization. rewrite Forall_forall. intros H Hin.
  specialize (H _ Hin). discriminate H.
Qed.

Lemma attempts_optimization_spec (t : list event) :
  attempts_optimization t = true <-> exists args, In (EvMinimize args) t.
Proof.
  unfold attempts_optimization. rewrite existsb_exists. split.
  - intros [[lvl msg| |args] [Hin Hm]]; try discriminate Hm. eauto.
  - intros [args Hin]. exists (EvMinimize args). now split.
Qed.

Lemma try_except_trace {A} (m : M A) (h : exn -> M A) :
  (forall e, no_optimization (trace (h e))) ->
  forall args, In (EvMinimize args) (trace (try_except m h)) ->
               In (EvMinimize args) (trace m).
Proof.
  intros Hh args. destruct m as [t [a|e]]; cbn [try_except trace fst]; trivial.
  specialize (Hh e). destruct (h e) as [t' r]. cbn [trace fst] in *.
  intros Hin. apply in_app_or in Hin. destruct Hin as [Hin|Hin]; trivial.
  now apply no_optimization_not_in in Hin.
Qed.

Lemma try_except_no_optimization {A} (m : M A) (h : exn -> M A) :
  (forall e, no_optimization (trace (h e))) ->
  no_optimization (trace m) ->
  no_optimization (trace (try_except m h)).
Proof.
  intros Hh Hm. destruct m as [t [a|e]]; cbn [try_except trace fst] in *; trivial.
  specialize (Hh e). destruct (h e) as [t' r]. cbn [trace fst] in *.
  now apply no_optimization_app.
Qed.

(** Where a solver call in the trace of the endpoint comes from. *)
Lemma endpoint_minimize_inv (file : string) (rl mw : float) args :
  In (EvMinimize args) (trace (optimize_portfolio file rl mw)) ->
  fle rl (Fin 0) = false /\
  fle mw (Fin 0) || fgt mw (Fin 1) = false /\
  exists s df,
    decode_utf8 file = Ok s /\ read_csv s = Ok df /\
    all_isreal df = true /\ Nat.ltb (len df) 30 = false /\
    In (EvMinimize args) (trace (optimize_markowitz_portfolio df rl mw)).
Proof.
  intros Hin.
  case_eq (fle rl (Fin 0)); intros H1.
  { unfold optimize_portfolio in Hin. rewrite H1 in Hin. destruct Hin. }
  case_eq (fle mw (Fin 0) || fgt mw (Fin 1)); intros H2.
  { unfold optimize_portfolio in Hin. rewrite H1, H2 in Hin. destruct Hin. }
  do 2 (split; [reflexivity|]).
  rewrite endpoint_validated in Hin by assumption.
  apply try_except_trace in Hin; [|exact endpoint_handler_trace].
  case_eq (decode_utf8 file); [intros s Hd | intros e Hd].
  2:{ unfold optimize_portfolio_try, file_read, emit in Hin.
      cbn [bind ret app] in Hin. rewrite Hd in Hin. cbn in Hin.
      destruct Hin as [Hin|[]]; discriminate Hin. }
  case_eq (read_csv s); [intros df Hr | intros e Hr].
  2:{ unfold optimize_portfolio_try, file_read, emit in Hin.
      cbn [bind ret app] in Hin. rewrite Hd in Hin.
      cbn [lift bind app] in Hin. rewrite Hr in Hin. cbn in Hin.
      destruct Hin as [Hin|[]]; discriminate Hin. }
  exists s, df. do 2 (split; [first [assumption | reflexivity]|]).
  rewrite (try_parsed file rl mw s df Hd Hr) in Hin. unfold try_run in Hin.
  destruct (all_isreal df); cbn [negb] in Hin.
  2:{ destruct Hin as [Hin|[]]; discriminate Hin. }
  destruct (Nat.ltb (len df) 30).
  { destruct Hin as [Hin|[]]; discriminate Hin. }
  do 2 (split; [reflexivity|]).
  destruct (optimize_markowitz_portfolio df rl mw) as [t r].
  cbn [trace fst] in *.
  destruct Hin as [Hin|[Hin|Hin]]; try discriminate Hin. exact Hin.
Qed.


Lemma after_solver_outcome (p : MinimizeArgs) (cols : list string) :
  match outcome (after_solver p cols) with
  | Ok _ => True
  | Raise e => exists msg, e = ValueError msg
  end.
Proof.
  unfold after_solver.
  destruct (minimize p) as [r|e]; [destruct (res_success r)|]; cbn; eauto.
Qed.

Lemma after_solver_trace (p : MinimizeArgs) (cols : list string) :
  exists logs,
    trace (after_solver p cols) = EvMinimize p :: logs /\
    Forall (fun ev => is_log ev = true) logs.
Proof.
  unfold after_solver.
  destruct (minimize p) as [r|e]; [destruct (res_success r)|]; cbn [trace fst].
  - eexists; split; [reflexivity|]. unfold sum_diagnostic.
    destruct (not_close_to_one _); repeat constructor.
  - eexists; split; [reflexivity|]. repeat constructor.
  - eexists; split; [reflexivity|]. repeat constructor.
Qed.

(** The run of the endpoint on a request that passes every validation, with
    the statistics available and at least one asset. *)
Lemma endpoint_run (file : string) (rl mw : float) s df mean cov :
  fle rl (Fin 0) = false ->
  fle mw (Fin 0) || fgt mw (Fin 1) = false ->
  decode_utf8 file = Ok s ->
  read_csv s = Ok df ->
  all_isreal df = true ->
  Nat.ltb (len df) 30 = false ->
  df_mean df = Ok mean ->
  df_cov df = Ok cov ->
  columns df <> [] ->
  let run := after_solver (problem_of mean cov df rl mw) (columns df) in
  optimize_portfolio file rl mw
  = ((EvFileRead :: optimizing_record df :: trace run)%list,
     endpoint_answer (outcome run)).
Proof.
  intros H1 H2 Hd Hr Hreal Hlen Hm Hc Hn run.
  rewrite (endpoint_parsed file rl mw s df H1 H2 Hd Hr).
  unfold try_run. rewrite Hreal, Hlen. cbn [negb].
  rewrite (markowitz_run df rl mw mean cov Hm Hc Hn). fold run.
  pose proof (after_solver_outcome (problem_of mean cov df rl mw) (columns df))
    as Hout. fold run in Hout.
  destruct run as [t [d|e]]; cbn [outcome snd trace fst] in *.
  - reflexivity.
  - destruct Hout as [msg ->]. cbn. now rewrite app_nil_r.
Qed.

End Runs.

(* ===================================================================== *)
(** ** Validation and failure paths *)
(* ===================================================================== *)

Section Failures.

Context {RT : Runtime}.

(** The parameter checks of lines 117 to 121.  A request with
    [risk_level <= 0], or with [max_weight <= 0] or [max_weight > 1], fails
    before the upload is read and before any optimisation (no event at
    all); the failure is [InvalidRiskLevelError] when [risk_level <= 0] and
    [InvalidWeightBoundError] otherwise. *)
Lemma parameters_validated_first (file : string) (rl mw : float) :
  fle rl (Fin 0) = true \/ fle mw (Fin 0) || fgt mw (Fin 1) = true ->
  optimize_portfolio file rl mw
  = ([], Raise (if fle rl (Fin 0) then InvalidRiskLevelError
                else InvalidWeightBoundError)).
Proof.
  intros Hbad. unfold optimize_portfolio.
  destruct (fle rl (Fin 0)) eqn:Hrl.
  - reflexivity.
  - destruct Hbad as [Hbad|Hbad]; [discriminate Hbad|]. now rewrite Hbad.
Qed.

(** C10.  On a validated request whose upload parses to a frame that fails
    the numeric check or has fewer than 30 rows, the [HTTPException] with
    status 400 raised inside the [try] does not leave the endpoint: the last
    handler logs it and raises an [HTTPException] with status 500 whose
    detail is ["Error en el servidor: "] followed by the rendering of the
    original exception, which with Starlette's [__str__] reads
    ["400: <original detail>"]. *)
Theorem validation_failure_becomes_server_error (file : string) (rl mw : float)
    s df :
  (forall status_code detail,
     str_http_exception status_code detail = starlette_str status_code detail) ->
  fle rl (Fin 0) = false ->
  fle mw (Fin 0) || fgt mw (Fin 1) = false ->
  decode_utf8 file = Ok s ->
  read_csv s = Ok df ->
  all_isreal df = false \/ (len df < 30)%nat ->
  exists detail,
    (HTTPException 400 detail = NonNumericInputError \/
     HTTPException 400 detail = InsufficientDataError (len df)) /\
    outcome (optimize_portfolio_try file rl mw) = Raise (HTTPException 400 detail) /\
    optimize_portfolio file rl mw
    = ([EvFileRead; EvLog ERROR ("Error inesperado: 400: " ++ detail)],
       Raise (HTTPException 500 ("Error en el servidor: 400: " ++ detail))).
Proof.
  intros Hstr H1 H2 Hd Hr Hbad.
  rewrite (endpoint_parsed file rl mw s df H1 H2 Hd Hr).
  rewrite (try_parsed file rl mw s df Hd Hr).
  unfold try_run.
  destruct (all_isreal df) eqn:Hreal; cbn [negb].
  - destruct Hbad as [Hbad|Hbad]; [discriminate Hbad|].
    apply Nat.ltb_lt in Hbad. rewrite Hbad.
    eexists. split; [right; reflexivity|]. split; [reflexivity|].
    cbn [try_except endpoint_handler InsufficientDataError].
    unfold logger_error, emit. cbn [bind raise app].
    unfold InsufficientDataError, str_exn. rewrite Hstr. reflexivity.
  - eexists. split; [left; reflexivity|]. split; [reflexivity|].
    cbn [try_except endpoint_handler NonNumericInputError].
    unfold logger_error, emit. cbn [bind raise app].
    unfold NonNumericInputError, str_exn. rewrite Hstr. reflexivity.
Qed.


Lemma all_isreal_false_iff (df : DataFrame) :
  all_isreal df = false <-> has_text df.
Proof.
  unfold all_isreal, has_text. split.
  - intros H.
    induction (rows df) as [|row rs IH]; [discriminate H|].
    cbn [forallb] in H. apply andb_false_iff in H. destruct H as [H|H].
    + assert (Hc : exists t, In (CStr t) row).
      { clear -H. induction row as [|c cs IHc]; [discriminate H|].
        cbn [forallb] in H. destruct c as [v|t].
        - destruct (IHc H) as [t Ht]. exists t. now right.
        - exists t. now left. }
      destruct Hc as [t Ht]. exists row, t. split; [now left | exact Ht].
    + destruct (IH H) as (row' & t & Hin & Ht).
      exists row', t. split; [now right | exact Ht].
  - intros (row & t & Hin & Ht).
    destruct (forallb (forallb np_isreal) (rows df)) eqn:E; [|reflexivity].
    rewrite forallb_forall in E. specialize (E row Hin).
    rewrite forallb_forall in E. specialize (E _ Ht). discriminate E.
Qed.

(** The run of the endpoint when the body of the [try] raises before the
    function is called. *)
Lemma early_failure (file : string) (rl mw : float) s df e :
  fle rl (Fin 0) = false ->
  fle mw (Fin 0) || fgt mw (Fin 1) = false ->
  decode_utf8 file = Ok s ->
  read_csv s = Ok df ->
  try_run df rl mw = ([EvFileRead], Raise e) ->
  outcome (optimize_portfolio_try file rl mw) = Raise e /\
  no_optimization (trace (optimize_portfolio file rl mw)) /\
  exists status_code detail,
    outcome (optimize_portfolio file rl mw)
    = Raise (HTTPException status_code detail).
Proof.
  intros H1 H2 Hd Hr Hrun.
  rewrite (endpoint_parsed file rl mw s df H1 H2 Hd Hr).
  rewrite (try_parsed file rl mw s df Hd Hr), Hrun.
  split; [reflexivity|]. split.
  - apply try_except_no_optimization; [exact endpoint_handler_trace|].
    repeat constructor.
  - cbn [try_except]. destruct (endpoint_handler_raises e) as (c & d & Hh).
    destruct (endpoint_handler e) as [t r]. cbn [outcome snd] in *.
    exists c, d. exact Hh.
Qed.

(** C5 (amended).  On a validated request whose upload parses to a frame
    that holds a cell of text, the numeric check raises
    [NonNumericInputError] inside the [try], the endpoint fails and the
    solver is never called.  The check rejects exactly the frames that hold
    a cell of text: every float passes it, NaN and the infinities
    included. *)
Theorem text_rejected_nonfinite_accepted (file : string) (rl mw : float) s df :
  fle rl (Fin 0) = false ->
  fle mw (Fin 0) || fgt mw (Fin 1) = false ->
  decode_utf8 file = Ok s ->
  read_csv s = Ok df ->
  has_text df ->
  outcome (optimize_portfolio_try file rl mw) = Raise NonNumericInputError /\
  no_optimization (trace (optimize_portfolio file rl mw)) /\
  (exists status_code detail,
     outcome (optimize_portfolio file rl mw)
     = Raise (HTTPException status_code detail)) /\
  (forall df', all_isreal df' = false <-> has_text df') /\
  (forall v, np_isreal (CFloat v) = true).
Proof.
  intros H1 H2 Hd Hr Htext.
  assert (Hrun : try_run df rl mw = ([EvFileRead], Raise NonNumericInputError)).
  { apply all_isreal_false_iff in Htext. unfold try_run. now rewrite Htext. }
  destruct (early_failure file rl mw s df _ H1 H2 Hd Hr Hrun) as (Ht & Hno & Hf).
  repeat split; trivial; apply all_isreal_false_iff.
Qed.

(** C6 (amended).  On a validated request whose upload parses to a frame of
    fewer than 30 rows that passes the numeric check, the row-count check
    raises [InsufficientDataError] inside the [try], its detail ending with
    the number of rows received; the endpoint fails and the solver is never
    called. *)
Theorem short_numeric_frame_rejected (file : string) (rl mw : float) s df :
  fle rl (Fin 0) = false ->
  fle mw (Fin 0) || fgt mw (Fin 1) = false ->
  decode_utf8 file = Ok s ->
  read_csv s = Ok df ->
  all_isreal df = true ->
  (len df < 30)%nat ->
  outcome (optimize_portfolio_try file rl mw)
  = Raise (HTTPException 400
             ("Se requieren al menos 30 días de datos, se recibieron "
              ++ str_nat (len df))) /\
  no_optimization (trace (optimize_portfolio file rl mw)) /\
  exists status_code detail,
    outcome (optimize_portfolio file rl mw)
    = Raise (HTTPException status_code detail).
Proof.
  intros H1 H2 Hd Hr Hreal Hlen.
  apply (early_failure file rl mw s df _ H1 H2 Hd Hr).
  unfold try_run. rewrite Hreal. cbn [negb].
  apply Nat.ltb_lt in Hlen. now rewrite Hlen.
Qed.

(** C3.  Whenever the solver is called during a request and answers that it
    did not converge, the function raises a [ValueError] and the endpoint
    fails with status 400, both with the message ["Failed to optimize
    portfolio: Portfolio optimization did not converge: "] followed by the
    solver's status message, which is also logged; no response is
    returned. *)
Theorem non_convergence_is_reported (file : string) (rl mw : float) args r :
  In (EvMinimize args) (trace (optimize_portfolio file rl mw)) ->
  minimize args = Ok r ->
  res_success r = false ->
  outcome (optimize_portfolio file rl mw)
  = Raise (HTTPException 400 (non_convergence_detail (res_message r))) /\
  (forall resp, outcome (optimize_portfolio file rl mw) <> Ok resp) /\
  In (EvLog WARNING ("Optimization failed: " ++ res_message r))
     (trace (optimize_portfolio file rl mw)) /\
  exists s df,
    decode_utf8 file = Ok s /\ read_csv s = Ok df /\
    outcome (optimize_markowitz_portfolio df rl mw)
    = Raise (ValueError (non_convergence_detail (res_message r))).
Proof.
  intros Hin Hsol Hfail.
  destruct (endpoint_minimize_inv file rl mw args Hin)
    as (H1 & H2 & s & df & Hd & Hr & Hreal & Hlen & Hin').
  destruct (markowitz_minimize_inv df rl mw args Hin')
    as (mean & cov & Hm & Hc & Hn & ->).
  pose proof (endpoint_run file rl mw s df mean cov H1 H2 Hd Hr Hreal Hlen Hm Hc Hn)
    as Hrun. cbv zeta in Hrun.
  pose proof (markowitz_run df rl mw mean cov Hm Hc Hn) as Hfun.
  unfold after_solver in Hrun, Hfun. rewrite Hsol, Hfail in Hrun, Hfun.
  cbn [trace fst outcome snd endpoint_answer str_exn] in Hrun.
  rewrite Hrun. cbn [outcome snd trace fst].
  split; [reflexivity|]. split; [discriminate|].
  split; [right; right; right; left; reflexivity|].
  exists s, df. rewrite Hfun. repeat split; assumption.
Qed.

(** C2 (amended).  For [n >= 1] assets with [n * max_weight < 1], a request
    that passes the parameter and data validations is not rejected for
    infeasible bounds: the solver is called, once, on the problem with the
    bounds [(0, max_weight)] for each asset, and the answer of the endpoint
    is the one the solver's answer yields. *)
Theorem infeasible_bounds_reach_solver (file : string) (rl mw : float)
    s df mean cov :
  fle rl (Fin 0) = false ->
  fle mw (Fin 0) || fgt mw (Fin 1) = false ->
  decode_utf8 file = Ok s ->
  read_csv s = Ok df ->
  all_isreal df = true ->
  Nat.ltb (len df) 30 = false ->
  df_mean df = Ok mean ->
  df_cov df = Ok cov ->
  columns df <> [] ->
  bounds_infeasible (List.length (columns df)) mw = true ->
  let p := problem_of mean cov df rl mw in
  m_bounds p = repeat (Fin 0, mw) (List.length (columns df)) /\
  (exists logs,
     trace (optimize_portfolio file rl mw)
     = (EvFileRead :: optimizing_record df :: EvMinimize p :: logs)%list /\
     Forall (fun ev => is_log ev = true) logs) /\
  outcome (optimize_portfolio file rl mw)
  = endpoint_answer (outcome (after_solver p (columns df))).
Proof.
  intros H1 H2 Hd Hr Hreal Hlen Hm Hc Hn _ p.
  rewrite (endpoint_run file rl mw s df mean cov H1 H2 Hd Hr Hreal Hlen Hm Hc Hn).
  fold p. split; [reflexivity|]. split; [|reflexivity].
  destruct (after_solver_trace p (columns df)) as (logs & Ht & Hlogs).
  exists logs. cbn [trace fst]. now rewrite Ht.
Qed.

End Failures.

(* ===================================================================== *)
(** ** The service on examples *)
(* ===================================================================== *)

(** A request that goes through: two flat assets, equal weights returned. *)
Example two_flat_assets :
  Demo.run (@optimize_portfolio Demo.flat2 Demo.upload (Fin 1) (Fin 1))
  = ([Demo.SFileRead;
      Demo.SLog INFO "Optimizando portafolio con 2 activos y 30 días";
      Demo.SMinimize [Fin (1 # 2); Fin (1 # 2)]
                     [(Fin 0, Fin 1); (Fin 0, Fin 1)]],
     Ok [("optimal_portfolio",
          [("A0", Fin (1 # 2)); ("A1", Fin (1 # 2))])]).
Proof. vm_compute. reflexivity. Qed.

(** The same request with a solver that stalls. *)
Example two_flat_assets_stalled :
  Demo.run (@optimize_portfolio Demo.stalled Demo.upload (Fin 1) (Fin 1))
  = ([Demo.SFileRead;
      Demo.SLog INFO "Optimizando portafolio con 2 activos y 30 días";
      Demo.SMinimize [Fin (1 # 2); Fin (1 # 2)]
                     [(Fin 0, Fin 1); (Fin 0, Fin 1)];
      Demo.SLog WARNING
        "Optimization failed: Positive directional derivative for linesearch";
      Demo.SLog ERROR
        "Error in optimization: Portfolio optimization did not converge: Positive directional derivative for linesearch"],
     Raise (HTTPException 400
              "Failed to optimize portfolio: Portfolio optimization did not converge: Positive directional derivative for linesearch")).
Proof. vm_compute. reflexivity. Qed.

(** A frame without asset columns: [1/n_assets] raises before the [try] of
    the function, and the endpoint answers with status 500. *)
Example no_asset_columns :
  Demo.run (@optimize_portfolio Demo.no_assets Demo.upload (Fin 1) (Fin 1))
  = ([Demo.SFileRead;
      Demo.SLog INFO "Optimizando portafolio con 0 activos y 30 días";
      Demo.SLog ERROR "Error inesperado: division by zero"],
     Raise (HTTPException 500 "Error en el servidor: division by zero")).
Proof. vm_compute. reflexivity. Qed.

(** The range test of line 120 is the complement of (0, 1] on every float
    but NaN, on which both of its comparisons are false. *)
Lemma range_test_misses_only_nan (mw : float) :
  fle mw (Fin 0) || fgt mw (Fin 1)
  = outside_unit_interval mw && negb (is_nan mw).
Proof.
  unfold outside_unit_interval, fgt.
  destruct mw as [q| | |]; cbn [fle flt is_nan negb]; try reflexivity.
  unfold Qltb. destruct (Qle_bool q 0), (Qle_bool q 1); reflexivity.
Qed.

(** With the risk level checked first, every weight bound outside (0, 1]
    other than NaN is rejected before the upload is read. *)
Lemma weight_bound_rejected_unless_nan {RT : Runtime} (file : string)
    (rl mw : float) :
  fle rl (Fin 0) = false ->
  outside_unit_interval mw = true ->
  mw <> NaN ->
  optimize_portfolio file rl mw = ([], Raise InvalidWeightBoundError).
Proof.
  intros Hrl Hout Hnan.
  rewrite (parameters_validated_first file rl mw), Hrl; [reflexivity|].
  right. rewrite range_test_misses_only_nan, Hout.
  destruct mw; try reflexivity. congruence.
Qed.

(** C7 (defect).  The weight bound NaN is outside (0, 1], yet neither
    comparison of the range test holds for it: the request with
    [risk_level = 1.0] and [max_weight = NaN] is not rejected with
    [InvalidWeightBoundError]; the upload is read and the solver is called,
    with NaN as the upper bound of every weight. *)
Theorem nan_weight_bound_not_rejected :
  outside_unit_interval NaN = true /\
  fle NaN (Fin 0) || fgt NaN (Fin 1) = false /\
  Demo.run (@optimize_portfolio Demo.flat2 Demo.upload (Fin 1) NaN)
  = ([Demo.SFileRead;
      Demo.SLog INFO "Optimizando portafolio con 2 activos y 30 días";
      Demo.SMinimize [Fin (1 # 2); Fin (1 # 2)]
                     [(Fin 0, NaN); (Fin 0, NaN)]],
     Ok [("optimal_portfolio", [("A0", Fin (1 # 2)); ("A1", Fin (1 # 2))])]) /\
  outcome (@optimize_portfolio Demo.flat2 Demo.upload (Fin 1) NaN)
  <> Raise InvalidWeightBoundError.
Proof.
  split; [reflexivity|]. split; [reflexivity|].
  split; [vm_compute; reflexivity|].
  vm_compute. discriminate.
Qed.

(** Any other bound outside the interval is rejected, the bound [1.5] for
    one, and so is a risk level that is not positive, whatever the bound. *)
Example invalid_parameters_rejected :
  @optimize_portfolio Demo.flat2 Demo.upload (Fin 1) (fl (3 # 2))
  = ([], Raise InvalidWeightBoundError) /\
  @optimize_portfolio Demo.flat2 Demo.upload (Fin 0) (Fin 2)
  = ([], Raise InvalidRiskLevelError).
Proof.
  split; vm_compute; reflexivity.
Qed.

Lemma validation_failure_becomes_server_error_witness :
  exists detail,
    (HTTPException 400 detail = NonNumericInputError \/
     HTTPException 400 detail = InsufficientDataError 10) /\
    outcome (@optimize_portfolio_try Demo.short Demo.upload (Fin 1) (Fin 1))
    = Raise (HTTPException 400 detail) /\
    @optimize_portfolio Demo.short Demo.upload (Fin 1) (Fin 1)
    = ([EvFileRead; EvLog ERROR ("Error inesperado: 400: " ++ detail)],
       Raise (HTTPException 500 ("Error en el servidor: 400: " ++ detail))).
Proof.
  apply (@validation_failure_becomes_server_error Demo.short Demo.upload
           (Fin 1) (Fin 1) Demo.upload (Demo.constant_frame 10 2 0)).
  - reflexivity.
  - reflexivity.
  - reflexivity.
  - reflexivity.
  - reflexivity.
  - right. vm_compute. lia.
Defined.

(** C5, as stated, fails: a frame of thirty rows with a NaN passes the
    numeric check, the solver is called and the endpoint answers with a
    portfolio. *)
Lemma nan_reaches_the_solver :
  In [CFloat (Fin 0); CFloat NaN] (rows Demo.nan_frame) /\
  attempts_optimization
    (trace (@optimize_portfolio Demo.with_nan Demo.upload (Fin 1) (Fin 1)))
  = true /\
  outcome (@optimize_portfolio Demo.with_nan Demo.upload (Fin 1) (Fin 1))
  = Ok [("optimal_portfolio",
         [("A0", Fin (1 # 2)); ("A1", Fin (1 # 2))])].
Proof.
  split; [left; reflexivity|]. split; vm_compute; reflexivity.
Qed.

Lemma text_rejected_nonfinite_accepted_witness :
  outcome (@optimize_portfolio_try Demo.short_text Demo.upload (Fin 1) (Fin 1))
  = Raise NonNumericInputError /\
  no_optimization
    (trace (@optimize_portfolio Demo.short_text Demo.upload (Fin 1) (Fin 1))) /\
  (exists status_code detail,
     outcome (@optimize_portfolio Demo.short_text Demo.upload (Fin 1) (Fin 1))
     = Raise (HTTPException status_code detail)) /\
  (forall df', all_isreal df' = false <-> has_text df') /\
  (forall v, np_isreal (CFloat v) = true).
Proof.
  apply (@text_rejected_nonfinite_accepted Demo.short_text Demo.upload
           (Fin 1) (Fin 1) Demo.upload Demo.short_text_frame);
    try reflexivity.
  exists [CFloat (Fin 0); CStr "abc"], "abc"%string.
  split; [left; reflexivity | right; left; reflexivity].
Defined.

(** C6, as stated, fails: on a frame of ten rows with a column of text the
    failure raised is the one of the numeric check, and the answer of the
    endpoint does not mention the number of rows. *)
Lemma short_frame_with_text_fails_numeric_check :
  len Demo.short_text_frame = 10%nat /\
  outcome (@optimize_portfolio_try Demo.short_text Demo.upload (Fin 1) (Fin 1))
  = Raise NonNumericInputError /\
  Raise NonNumericInputError <> Raise (A := response) (InsufficientDataError 10) /\
  outcome (@optimize_portfolio Demo.short_text Demo.upload (Fin 1) (Fin 1))
  = Raise (HTTPException 500
             "Error en el servidor: 400: El archivo debe contener solo valores numéricos").
Proof.
  split; [reflexivity|]. split; [reflexivity|]. split; [discriminate|].
  reflexivity.
Qed.

Lemma short_numeric_frame_rejected_witness :
  outcome (@optimize_portfolio_try Demo.short Demo.upload (Fin 1) (Fin 1))
  = Raise (HTTPException 400
             ("Se requieren al menos 30 días de datos, se recibieron "
              ++ str_nat (len (Demo.constant_frame 10 2 0)))) /\
  no_optimization
    (trace (@optimize_portfolio Demo.short Demo.upload (Fin 1) (Fin 1))) /\
  exists status_code detail,
    outcome (@optimize_portfolio Demo.short Demo.upload (Fin 1) (Fin 1))
    = Raise (HTTPException status_code detail).
Proof.
  apply (@short_numeric_frame_rejected Demo.short Demo.upload (Fin 1) (Fin 1)
           Demo.upload (Demo.constant_frame 10 2 0)).
  - reflexivity.
  - reflexivity.
  - reflexivity.
  - reflexivity.
  - reflexivity.
  - vm_compute. lia.
Defined.

(** C2, as stated, fails: with two assets and [max_weight = 0.3] the bounds
    cannot be met ([2 * 0.3 < 1]), yet the solver is called; the failure of
    the request is the solver's, reported as non-convergence. *)
Lemma infeasible_bounds_not_detected :
  bounds_infeasible 2 (fl (3 # 10)) = true /\
  attempts_optimization
    (trace (@optimize_portfolio Demo.stalled Demo.upload (Fin 1) (fl (3 # 10))))
  = true /\
  outcome (@optimize_portfolio Demo.stalled Demo.upload (Fin 1) (fl (3 # 10)))
  = Raise (HTTPException 400
             "Failed to optimize portfolio: Portfolio optimization did not converge: Positive directional derivative for linesearch").
Proof.
  split; [reflexivity|]. split; vm_compute; reflexivity.
Qed.

Lemma infeasible_bounds_reach_solver_witness :
  let df := Demo.constant_frame 30 2 0 in
  let p := @problem_of Demo.stalled (Demo.frame_mean df) (Demo.frame_cov df) df
             (Fin 1) (fl (3 # 10)) in
  m_bounds p = repeat (Fin 0, fl (3 # 10)) (List.length (columns df)) /\
  (exists logs,
     trace (@optimize_portfolio Demo.stalled Demo.upload (Fin 1) (fl (3 # 10)))
     = (EvFileRead :: optimizing_record df :: EvMinimize p :: logs)%list /\
     Forall (fun ev => is_log ev = true) logs) /\
  outcome (@optimize_portfolio Demo.stalled Demo.upload (Fin 1) (fl (3 # 10)))
  = @endpoint_answer Demo.stalled
      (outcome (@after_solver Demo.stalled p (columns df))).
Proof.
  apply (@infeasible_bounds_reach_solver Demo.stalled Demo.upload
           (Fin 1) (fl (3 # 10)) Demo.upload (Demo.constant_frame 30 2 0)
           (Demo.frame_mean (Demo.constant_frame 30 2 0))
           (Demo.frame_cov (Demo.constant_frame 30 2 0))).
  - reflexivity.
  - reflexivity.
  - reflexivity.
  - reflexivity.
  - reflexivity.
  - reflexivity.
  - reflexivity.
  - reflexivity.
  - discriminate.
  - reflexivity.
Defined.

Lemma non_convergence_is_reported_witness :
  let message := "Positive directional derivative for linesearch"%string in
  outcome (@optimize_portfolio Demo.stalled Demo.upload (Fin 1) (Fin 1))
  = Raise (HTTPException 400 (non_convergence_detail message)) /\
  (forall resp,
     outcome (@optimize_portfolio Demo.stalled Demo.upload (Fin 1) (Fin 1))
     <> Ok resp) /\
  In (EvLog WARNING ("Optimization failed: " ++ message))
     (trace (@optimize_portfolio Demo.stalled Demo.upload (Fin 1) (Fin 1))) /\
  exists s df,
    @decode_utf8 Demo.stalled Demo.upload = Ok s /\
    @read_csv Demo.stalled s = Ok df /\
    outcome (@optimize_markowitz_portfolio Demo.stalled df (Fin 1) (Fin 1))
    = Raise (ValueError (non_convergence_detail message)).
Proof.
  set (df := Demo.constant_frame 30 2 0).
  set (p := @problem_of Demo.stalled (Demo.frame_mean df) (Demo.frame_cov df) df
              (Fin 1) (Fin 1)).
  apply (@non_convergence_is_reported Demo.stalled Demo.upload (Fin 1) (Fin 1)
           p {| res_x := m_x0 p; res_success := false;
                res_message := "Positive directional derivative for linesearch" |}).
  - rewrite (@endpoint_run Demo.stalled Demo.upload (Fin 1) (Fin 1) Demo.upload
               df (Demo.frame_mean df) (Demo.frame_cov df));
      try reflexivity; [|discriminate].
    right. right. left. reflexivity.
  - reflexivity.
  - reflexivity.
Defined.


(* ===================================================================== *)
(** ** The risk constraint *)
(* ===================================================================== *)

Section RiskConstraint.

Context {RT : Runtime}.

(** C8 (amended).  The risk constraint takes the root of the quadratic form
    as it is, without clamping it at zero: where the quadratic form is not
    negative its value is the one of the clamped evaluation, and where the
    quadratic form is negative its value is NaN. *)
Theorem risk_constraint_not_clamped (cov : list (list float)) (rl : float)
    (w : list float) :
  risk_constraint cov rl w
  = if flt (portfolio_variance cov w) (Fin 0) then NaN
    else risk_constraint_clamped cov rl w.
Proof.
  unfold risk_constraint, risk_constraint_clamped, clamp_at_zero.
  destruct (flt (portfolio_variance cov w) (Fin 0)) eqn:Hneg; [|reflexivity].
  destruct (portfolio_variance cov w) as [q| | |]; cbn in Hneg |- *;
    try discriminate Hneg.
  - unfold Qltb in Hneg |- *. rewrite Hneg. now destruct rl.
  - now destruct rl.
Qed.

End RiskConstraint.

(** C8, as stated, fails: at equal weights on [Demo.rounded_cov] the
    argument of the root is negative, the root is taken of it all the same
    and the constraint evaluates to NaN, where the clamped evaluation gives
    [risk_level - 0]; the inequality constraint of the problem built for
    this matrix is that unclamped function. *)
Lemma root_taken_of_negative_argument :
  let w := [Fin (1 # 2); Fin (1 # 2)] in
  flt (@portfolio_variance Demo.flat2 Demo.rounded_cov w) (Fin 0) = true /\
  @risk_constraint Demo.flat2 Demo.rounded_cov (Fin 1) w = NaN /\
  @risk_constraint_clamped Demo.flat2 Demo.rounded_cov (Fin 1) w = Fin 1 /\
  map (fun c => (ctype c, cfun c w))
      (m_constraints
         (@build_problem Demo.flat2 [Fin 0; Fin 0] Demo.rounded_cov 2
            (Fin 1) (Fin 1) (equal_weights 2)))
  = [(Ceq, Fin 0); (Cineq, NaN)].
Proof.
  split; [|split; [|split]].
  - vm_compute. reflexivity.
  - vm_compute. reflexivity.
  - vm_compute. reflexivity.
  - vm_compute. reflexivity.
Qed.

(* ===================================================================== *)
(** ** The problem handed to the solver *)
(* ===================================================================== *)

Section Problem.

Context {RT : Runtime}.

(** Filling the NaN entries changes nothing where there is none. *)
Lemma nan_to_zero_id (l : list float) :
  Forall (fun v => is_nan v = false) l -> map nan_to_zero l = l.
Proof.
  induction 1 as [|v l Hv _ IH]; [reflexivity|].
  cbn [map]. rewrite IH. destruct v; [reflexivity | discriminate Hv | reflexivity..].
Qed.

(** [1/n] is the float nearest to the real quotient. *)
Lemma one_over_rounds (n : nat) :
  n <> O -> one_over n = fl (1 / inject_Z (Z.of_nat n)).
Proof.
  intros Hn. unfold one_over, fdiv.
  assert (Hpos : (inject_Z (Z.of_nat n) ?= 0)%Q = Gt).
  { apply Qgt_alt. unfold Qlt. cbn. lia. }
  now rewrite Hpos.
Qed.

(** C9 (amended).  With the estimates [mean] and [cov] of a frame of
    [n >= 1] assets, whatever their values, the function calls the solver,
    once and before anything else, with: the objective that is minus
    [np.sum] of the products [mean_i * w_i], a product that is NaN counting
    as zero (so it is [-sum(mean_i * w_i)] wherever no product is NaN); the
    constraints, in this order, the equality [np.sum(w) - 1] and the
    inequality [risk_level - sqrt(w . (cov . w))]; the bounds
    [(0, max_weight)] for each of the [n] assets; method SLSQP with at most
    1000 iterations; and the starting point whose [n] components are the
    float nearest to [1/n]. *)
Theorem problem_handed_to_solver (df : DataFrame) (rl mw : float)
    (mean : list float) (cov : list (list float)) :
  df_mean df = Ok mean ->
  df_cov df = Ok cov ->
  columns df <> [] ->
  let n := List.length (columns df) in
  exists p logs c_eq c_ineq,
    trace (optimize_markowitz_portfolio df rl mw) = (EvMinimize p :: logs)%list /\
    Forall (fun ev => is_log ev = true) logs /\
    m_method p = "SLSQP"%string /\
    m_maxiter p = 1000%nat /\
    (forall w, m_fun p w = fneg (np_sum (map nan_to_zero (np_mul mean w)))) /\
    (forall w, Forall (fun v => is_nan v = false) (np_mul mean w) ->
               m_fun p w = objective_as_specified mean w) /\
    m_constraints p = [c_eq; c_ineq] /\
    ctype c_eq = Ceq /\
    (forall w, cfun c_eq w = fsub (np_sum w) (Fin 1)) /\
    ctype c_ineq = Cineq /\
    (forall w, cfun c_ineq w
               = fsub rl (np_sqrt sqrt_real (np_dot w (np_matvec cov w)))) /\
    m_bounds p = repeat (Fin 0, mw) n /\
    m_x0 p = repeat (fl (1 / inject_Z (Z.of_nat n))) n.
Proof.
  intros Hm Hc Hn n.
  rewrite (markowitz_run df rl mw _ _ Hm Hc Hn).
  destruct (after_solver_trace (problem_of mean cov df rl mw) (columns df))
    as (logs & Ht & Hlogs).
  eexists _, logs, _, _. split; [exact Ht|]. split; [exact Hlogs|].
  split; [reflexivity|]. split; [reflexivity|].
  split; [reflexivity|].
  split.
  { intros w Hw. cbn [problem_of build_problem m_fun].
    unfold objective, series_sum, objective_as_specified.
    now rewrite (nan_to_zero_id _ Hw). }
  split; [reflexivity|]. split; [reflexivity|].
  split; [reflexivity|]. split; [reflexivity|].
  split; [reflexivity|]. split; [reflexivity|].
  cbn [problem_of build_problem m_x0]. unfold equal_weights. fold n.
  rewrite one_over_rounds; [reflexivity|].
  subst n. destruct (columns df); [congruence | discriminate].
Qed.

End Problem.

(** The equality constraint at the starting point, with a sum that adds
    from left to right: for six assets it is [-2^-53], not zero; for three
    it is zero. *)
Example equality_constraint_at_the_starting_point :
  @sum_to_one Demo.flat2 (equal_weights 6) = Fin (- (1 # 9007199254740992)) /\
  @sum_to_one Demo.flat2 (equal_weights 3) = Fin 0.
Proof.
  split; vm_compute; reflexivity.
Qed.

(** C9, as stated, fails: on a frame whose second column is empty the
    estimated mean of that column is NaN, and the objective handed to the
    solver leaves its product out: at equal weights it is [-0.005], where
    minus the sum of both products is NaN. *)
Lemma nan_mean_left_out_of_objective :
  let df := Demo.empty_column_frame in
  let mean := [fl (1 # 100); NaN] in
  let cov := [[Fin 0; NaN]; [NaN; NaN]] in
  let p := @problem_of Demo.empty_column mean cov df (Fin 1) (Fin 1) in
  let w := [Fin (1 # 2); Fin (1 # 2)] in
  all_isreal df = true /\
  len df = 30%nat /\
  @df_mean Demo.empty_column df = Ok mean /\
  @df_cov Demo.empty_column df = Ok cov /\
  hd_error (trace (@optimize_portfolio Demo.empty_column Demo.upload (Fin 1) (Fin 1)))
  = Some EvFileRead /\
  In (EvMinimize p)
     (trace (@optimize_portfolio Demo.empty_column Demo.upload (Fin 1) (Fin 1))) /\
  m_fun p w = fl (- (5 # 1000)) /\
  @objective_as_specified Demo.empty_column mean w = NaN /\
  ~ float_eq (m_fun p w) (@objective_as_specified Demo.empty_column mean w).
Proof.
  cbv zeta.
  split; [vm_compute; reflexivity|]. split; [vm_compute; reflexivity|].
  split; [vm_compute; reflexivity|]. split; [vm_compute; reflexivity|].
  split; [vm_compute; reflexivity|].
  split.
  { rewrite (@endpoint_run Demo.empty_column Demo.upload (Fin 1) (Fin 1) Demo.upload
               Demo.empty_column_frame [fl (1 # 100); NaN]
               [[Fin 0; NaN]; [NaN; NaN]]);
      [| solve [vm_compute; reflexivity | discriminate] ..].
    right. right. left. reflexivity. }
  split; [vm_compute; reflexivity|]. split; [vm_compute; reflexivity|].
  vm_compute. intros H. exact H.
Qed.

Lemma problem_handed_to_solver_witness :
  let df := Demo.empty_column_frame in
  let mean := [fl (1 # 100); NaN] in
  let cov := [[Fin 0; NaN]; [NaN; NaN]] in
  exists p logs c_eq c_ineq,
    trace (@optimize_markowitz_portfolio Demo.empty_column df (Fin 1) (Fin 1))
    = (EvMinimize p :: logs)%list /\
    Forall (fun ev => is_log ev = true) logs /\
    m_method p = "SLSQP"%string /\
    m_maxiter p = 1000%nat /\
    (forall w, m_fun p w
               = fneg (Demo.sequential_sum (map nan_to_zero (np_mul mean w)))) /\
    (forall w, Forall (fun v => is_nan v = false) (np_mul mean w) ->
               m_fun p w = @objective_as_specified Demo.empty_column mean w) /\
    m_constraints p = [c_eq; c_ineq] /\
    ctype c_eq = Ceq /\
    (forall w, cfun c_eq w = fsub (Demo.sequential_sum w) (Fin 1)) /\
    ctype c_ineq = Cineq /\
    (forall w, cfun c_ineq w
               = fsub (Fin 1)
                   (np_sqrt Demo.sqrt_approx
                      (Demo.sequential_dot w (Demo.sequential_matvec cov w)))) /\
    m_bounds p = repeat (Fin 0, Fin 1) 2 /\
    m_x0 p = repeat (fl (1 / inject_Z 2)) 2.
Proof.
  apply (@problem_handed_to_solver Demo.empty_column Demo.empty_column_frame
           (Fin 1) (Fin 1) [fl (1 # 100); NaN] [[Fin 0; NaN]; [NaN; NaN]]).
  - vm_compute. reflexivity.
  - vm_compute. reflexivity.
  - discriminate.
Defined.

(* ===================================================================== *)
(** ** Rounding to binary64 keeps the order *)
(* ===================================================================== *)

Section Rounding.

Local Open Scope Z_scope.

(** [rint] is within one half of its argument, and a tie goes to the even
    neighbour. *)
Lemma rint_spec (n : Z) (d : positive) :
  let z := rint (n # d) in
  (2 * z - 1) * Z.pos d <= 2 * n <= (2 * z + 1) * Z.pos d /\
  (2 * n = (2 * z + 1) * Z.pos d -> Z.even z = true) /\
  (2 * n = (2 * z - 1) * Z.pos d -> Z.even z = true).
Proof.
  unfold rint. cbn [Qnum Qden].
  pose proof (Z.div_mod n (Z.pos d) ltac:(lia)) as Hdm.
  pose proof (Z.mod_pos_bound n (Z.pos d) ltac:(lia)) as Hr.
  set (f := n / Z.pos d) in *. set (r := n mod Z.pos d) in *.
  destruct (2 * r ?= Z.pos d) eqn:Hcmp.
  - apply Z.compare_eq in Hcmp.
    destruct (Z.even f) eqn:Hev.
    + repeat split; try nia. intros _. exact Hev.
    + repeat split; try nia. intros _.
      rewrite Z.even_add, Hev. reflexivity.
  - rewrite Z.compare_lt_iff in Hcmp. repeat split; nia.
  - rewrite Z.compare_gt_iff in Hcmp. repeat split; nia.
Qed.

Lemma rint_integer (z : Z) (d : positive) : rint (z * Z.pos d # d) = z.
Proof.
  unfold rint. cbn [Qnum Qden].
  rewrite Z.div_mul by lia. rewrite Z.mod_mul by lia.
  reflexivity.
Qed.

Lemma rint_monotone (n1 n2 : Z) (d1 d2 : positive) :
  n1 * Z.pos d2 <= n2 * Z.pos d1 -> rint (n1 # d1) <= rint (n2 # d2).
Proof.
  intros Hle.
  destruct (rint_spec n1 d1) as ((Hlo1 & _) & _ & Hdown1).
  destruct (rint_spec n2 d2) as ((_ & Hhi2) & Hup2 & _).
  set (z1 := rint (n1 # d1)) in *. set (z2 := rint (n2 # d2)) in *.
  destruct (Z_le_gt_dec z1 z2) as [|Hgt]; [assumption | exfalso].
  assert (H1 : (2 * z1 - 1) * (Z.pos d1 * Z.pos d2) <= 2 * n1 * Z.pos d2) by nia.
  assert (H2 : 2 * n2 * Z.pos d1 <= (2 * z2 + 1) * (Z.pos d1 * Z.pos d2)) by nia.
  assert (H3 : (2 * z1 - 1) * (Z.pos d1 * Z.pos d2)
               <= (2 * z2 + 1) * (Z.pos d1 * Z.pos d2)) by lia.
  assert (Hz : z1 = z2 + 1) by nia.
  assert (E1 : 2 * n1 = (2 * z1 - 1) * Z.pos d1) by nia.
  assert (E2 : 2 * n2 = (2 * z2 + 1) * Z.pos d2) by nia.
  specialize (Hdown1 E1). specialize (Hup2 E2).
  rewrite Hz, Z.even_add, Hup2 in Hdown1. discriminate Hdown1.
Qed.

End Rounding.

Section Binary64.

Local Open Scope Q_scope.

(** Landmarks of binary64 on which [fl] can be checked: the float [0.1];
    [0.1 + 0.2], which is not the float [0.3]; ties going to the even
    neighbour among the subnormals; the largest finite float and the
    overflow to infinity from the midpoint above it on; the overflow of
    [np.round(1e305, 4)], whose product with [10**4] is infinite. *)
Example binary64_landmarks :
  fl (1 # 10) = Fin (3602879701896397 # 36028797018963968) /\
  fadd (fl (1 # 10)) (fl (2 # 10)) <> fl (3 # 10) /\
  fl (pow2 (-1075)) = Fin 0 /\
  fl (3 * pow2 (-1075)) = fl (pow2 (-1073)) /\
  fl (pow2 1024 - pow2 971) = Fin (Qred (pow2 1024 - pow2 971)) /\
  fl (pow2 1024 - pow2 970) = PInf /\
  np_round4 (fl (10 ^ 305)) = PInf.
Proof.
  split; [vm_compute; reflexivity|].
  split; [intros H; vm_compute in H; discriminate H|].
  split; [vm_compute; reflexivity|]. split; [vm_compute; reflexivity|].
  split; [vm_compute; reflexivity|]. split; vm_compute; reflexivity.
Qed.

(** [rint] keeps the order. *)
Lemma rint_le (p q : Q) : p <= q -> (rint p <= rint q)%Z.
Proof.
  destruct p as [n1 d1], q as [n2 d2]. unfold Qle. cbn [Qnum Qden].
  apply rint_monotone.
Qed.

Lemma rint_inject_Z (z : Z) : rint (inject_Z z) = z.
Proof.
  unfold inject_Z. rewrite <- (rint_integer z 1) at 2. f_equal. f_equal. lia.
Qed.

Lemma rint_eq (x : Q) (z : Z) : x == inject_Z z -> rint x = z.
Proof.
  intros H. apply Z.le_antisymm.
  - rewrite <- (rint_inject_Z z). apply rint_le. rewrite H. apply Qle_refl.
  - rewrite <- (rint_inject_Z z) at 1. apply rint_le. rewrite H. apply Qle_refl.
Qed.

Lemma pow2_pos (e : Z) : 0 < pow2 e.
Proof.
  unfold pow2. apply Qpower_0_lt. reflexivity.
Qed.

Lemma pow2_plus (a b : Z) : pow2 (a + b) == pow2 a * pow2 b.
Proof.
  unfold pow2. apply Qpower_plus. discriminate.
Qed.

Lemma pow2_nonneg (e : Z) : (0 <= e)%Z -> pow2 e == inject_Z (2 ^ e).
Proof.
  intros He. unfold pow2. symmetry. apply (Zpower_Qpower 2 e He).
Qed.

Lemma pow2_le (a b : Z) : (a <= b)%Z -> pow2 a <= pow2 b.
Proof.
  intros Hab. unfold pow2. apply Qpower_le_compat_l; [exact Hab | discriminate].
Qed.

Lemma pow2_lt (a b : Z) : (a < b)%Z -> pow2 a < pow2 b.
Proof.
  intros Hab. unfold pow2. apply Qpower_lt_compat_l; [exact Hab | reflexivity].
Qed.

Lemma mult_lt_cancel (x y z : Q) : 0 < z -> x * z < y * z -> x < y.
Proof.
  intros Hz H. apply (Qmult_lt_r x y z Hz). exact H.
Qed.

(** The binary exponent brackets its argument. *)
Lemma ilog2_spec (x : Q) : 0 < x -> pow2 (ilog2 x) <= x /\ x < pow2 (ilog2 x + 1).
Proof.
  intros Hx. destruct x as [n d].
  assert (Hn : (0 < n)%Z).
  { unfold Qlt in Hx. cbn in Hx. lia. }
  unfold ilog2. cbn [Qnum Qden].
  set (a := Z.log2 n). set (b := Z.log2 (Z.pos d)).
  assert (Ha : (0 <= a)%Z) by apply Z.log2_nonneg.
  assert (Hb : (0 <= b)%Z) by apply Z.log2_nonneg.
  destruct (Z.log2_spec n Hn) as [Ha1 Ha2]. fold a in Ha1, Ha2.
  destruct (Z.log2_spec (Z.pos d) ltac:(lia)) as [Hb1 Hb2]. fold b in Hb1, Hb2.
  assert (Hxd : (n # d) * inject_Z (Z.pos d) == inject_Z n).
  { unfold Qeq, Qmult, inject_Z. cbn. lia. }
  assert (Hd0 : 0 < inject_Z (Z.pos d)).
  { unfold Qlt, inject_Z. cbn. lia. }
  assert (Hlow : pow2 (a - b - 1) < n # d).
  { apply (mult_lt_cancel _ _ (inject_Z (Z.pos d)) Hd0).
    rewrite Hxd.
    apply Qlt_le_trans with (pow2 (a - b - 1) * pow2 (b + 1)).
    - apply Qmult_lt_l; [apply pow2_pos |].
      rewrite pow2_nonneg by lia. rewrite <- Zlt_Qlt. exact Hb2.
    - rewrite <- pow2_plus. replace (a - b - 1 + (b + 1))%Z with a by lia.
      rewrite pow2_nonneg by lia. rewrite <- Zle_Qle. exact Ha1. }
  assert (Hhigh : n # d < pow2 (a - b + 1)).
  { apply (mult_lt_cancel _ _ (pow2 b) (pow2_pos b)).
    rewrite <- pow2_plus. replace (a - b + 1 + b)%Z with (a + 1)%Z by lia.
    apply Qle_lt_trans with ((n # d) * inject_Z (Z.pos d)).
    - apply Qmult_le_l; [exact Hx |].
      rewrite pow2_nonneg by lia. rewrite <- Zle_Qle. exact Hb1.
    - rewrite Hxd. rewrite pow2_nonneg by lia. rewrite <- Zlt_Qlt.
      replace (a + 1)%Z with (Z.succ a) by lia. exact Ha2. }
  destruct (Qle_bool (pow2 (a - b)) (n # d)) eqn:Hcmp.
  - split; [apply Qle_bool_iff; exact Hcmp | exact Hhigh].
  - split; [apply Qlt_le_weak; exact Hlow |].
    replace (a - b - 1 + 1)%Z with (a - b)%Z by lia.
    apply Qnot_le_lt. intros Hle. apply Qle_bool_iff in Hle.
    rewrite Hle in Hcmp. discriminate Hcmp.
Qed.

Lemma ilog2_monotone (x y : Q) : 0 < x -> x <= y -> (ilog2 x <= ilog2 y)%Z.
Proof.
  intros Hx Hxy.
  assert (Hy : 0 < y) by (apply Qlt_le_trans with x; assumption).
  destruct (ilog2_spec x Hx) as [Hx1 _].
  destruct (ilog2_spec y Hy) as [_ Hy2].
  destruct (Z_le_gt_dec (ilog2 x) (ilog2 y)) as [|Hgt]; [assumption | exfalso].
  assert (H : pow2 (ilog2 y + 1) <= pow2 (ilog2 x)) by (apply pow2_le; lia).
  apply (Qlt_irrefl y).
  apply Qlt_le_trans with (pow2 (ilog2 y + 1)); [exact Hy2 |].
  apply Qle_trans with (pow2 (ilog2 x)); [exact H |].
  apply Qle_trans with x; assumption.
Qed.

Lemma ulp_exponent_monotone (x y : Q) :
  0 < x -> x <= y -> (ulp_exponent x <= ulp_exponent y)%Z.
Proof.
  intros Hx Hxy. unfold ulp_exponent.
  pose proof (ilog2_monotone x y Hx Hxy). lia.
Qed.

Lemma nearest_nonneg (x : Q) : 0 <= x -> 0 <= nearest x.
Proof.
  intros Hx. unfold nearest.
  apply Qmult_le_0_compat; [| apply Qlt_le_weak, pow2_pos].
  change 0 with (inject_Z 0). rewrite <- Zle_Qle.
  rewrite <- (rint_inject_Z 0). apply rint_le.
  change (inject_Z 0) with 0.
  apply Qmult_le_0_compat; [exact Hx | apply Qlt_le_weak, pow2_pos].
Qed.

Lemma nearest_below_power (x : Q) (e : Z) :
  0 < x -> x <= pow2 e -> (ulp_exponent x <= e)%Z -> nearest x <= pow2 e.
Proof.
  intros Hx Hle Hu. unfold nearest. set (u := ulp_exponent x) in *.
  assert (Hr : (rint (x * pow2 (- u)) <= 2 ^ (e - u))%Z).
  { rewrite <- (rint_inject_Z (2 ^ (e - u))). apply rint_le.
    rewrite <- pow2_nonneg by lia.
    replace (e - u)%Z with (e + - u)%Z by lia. rewrite pow2_plus.
    apply Qmult_le_compat_r; [exact Hle | apply Qlt_le_weak, pow2_pos]. }
  apply Qle_trans with (inject_Z (2 ^ (e - u)) * pow2 u).
  - apply Qmult_le_compat_r; [| apply Qlt_le_weak, pow2_pos].
    rewrite <- Zle_Qle. exact Hr.
  - rewrite <- pow2_nonneg by lia. rewrite <- pow2_plus.
    replace (e - u + u)%Z with e by lia. apply Qle_refl.
Qed.

Lemma nearest_above_power (y : Q) (e : Z) :
  pow2 e <= y -> (ulp_exponent y <= e)%Z -> pow2 e <= nearest y.
Proof.
  intros Hle Hu. unfold nearest. set (u := ulp_exponent y) in *.
  assert (Hr : (2 ^ (e - u) <= rint (y * pow2 (- u)))%Z).
  { rewrite <- (rint_inject_Z (2 ^ (e - u))) at 1. apply rint_le.
    rewrite <- pow2_nonneg by lia.
    replace (e - u)%Z with (e + - u)%Z by lia. rewrite pow2_plus.
    apply Qmult_le_compat_r; [exact Hle | apply Qlt_le_weak, pow2_pos]. }
  apply Qle_trans with (inject_Z (2 ^ (e - u)) * pow2 u).
  - rewrite <- pow2_nonneg by lia. rewrite <- pow2_plus.
    replace (e - u + u)%Z with e by lia. apply Qle_refl.
  - apply Qmult_le_compat_r; [| apply Qlt_le_weak, pow2_pos].
    rewrite <- Zle_Qle. exact Hr.
Qed.

(** Rounding to the unit in the last place keeps the order: within one
    binade by [rint_le], across binades because a power of two is its own
    rounding. *)
Lemma nearest_monotone (x y : Q) : 0 < x -> x <= y -> nearest x <= nearest y.
Proof.
  intros Hx Hxy.
  assert (Hy : 0 < y) by (apply Qlt_le_trans with x; assumption).
  pose proof (ulp_exponent_monotone x y Hx Hxy) as Hu.
  destruct (Z.eq_dec (ulp_exponent x) (ulp_exponent y)) as [Heq | Hne].
  - unfold nearest. rewrite Heq.
    apply Qmult_le_compat_r; [| apply Qlt_le_weak, pow2_pos].
    rewrite <- Zle_Qle. apply rint_le.
    apply Qmult_le_compat_r; [exact Hxy | apply Qlt_le_weak, pow2_pos].
  - destruct (ilog2_spec x Hx) as [_ Hx2].
    destruct (ilog2_spec y Hy) as [Hy1 _].
    assert (Hlt : (ilog2 x < ilog2 y)%Z) by (unfold ulp_exponent in *; lia).
    apply Qle_trans with (pow2 (ilog2 y)).
    + apply nearest_below_power; [exact Hx | | unfold ulp_exponent in *; lia].
      apply Qlt_le_weak. apply Qlt_le_trans with (pow2 (ilog2 x + 1)); [exact Hx2 |].
      apply pow2_le. lia.
    + apply nearest_above_power; [exact Hy1 | unfold ulp_exponent in *; lia].
Qed.


Lemma fl_not_nan (q : Q) : fl q <> NaN.
Proof.
  unfold fl. destruct (q ?= 0); cbv zeta;
    try destruct (Qle_bool _ _); discriminate.
Qed.

(** Rounding to binary64 keeps the order. *)
Lemma fl_monotone (p q : Q) : p <= q -> fle (fl p) (fl q) = true.
Proof.
  intros Hpq. unfold fl.
  destruct (Qcompare_spec p 0) as [Hp | Hp | Hp];
    destruct (Qcompare_spec q 0) as [Hq | Hq | Hq]; cbv zeta.
  - reflexivity.
  - exfalso. rewrite Hp in Hpq. apply (Qlt_irrefl q).
    apply Qlt_le_trans with 0; assumption.
  - pose proof (nearest_nonneg q (Qlt_le_weak _ _ Hq)) as Hn.
    destruct (Qle_bool (pow2 1024) (nearest q)); [reflexivity |].
    cbn [fle]. apply Qle_bool_iff. rewrite Qred_correct. exact Hn.
  - assert (Hn : 0 <= nearest (- p)).
    { apply nearest_nonneg. lra. }
    destruct (Qle_bool (pow2 1024) (nearest (- p))); [reflexivity |].
    cbn [fle]. apply Qle_bool_iff. rewrite Qred_correct. lra.
  - assert (Hm : nearest (- q) <= nearest (- p)).
    { apply nearest_monotone; lra. }
    destruct (Qle_bool (pow2 1024) (nearest (- p))) eqn:Hop;
      [destruct (Qle_bool (pow2 1024) (nearest (- q))); reflexivity |].
    destruct (Qle_bool (pow2 1024) (nearest (- q))) eqn:Hoq.
    + exfalso. apply Qle_bool_iff in Hoq.
      assert (Hle : Qle_bool (pow2 1024) (nearest (- p)) = true).
      { apply Qle_bool_iff. apply Qle_trans with (nearest (- q)); assumption. }
      rewrite Hle in Hop. discriminate Hop.
    + cbn [fle]. apply Qle_bool_iff. rewrite !Qred_correct. lra.
  - assert (Hn : 0 <= nearest (- p)).
    { apply nearest_nonneg. lra. }
    pose proof (nearest_nonneg q (Qlt_le_weak _ _ Hq)) as Hn'.
    destruct (Qle_bool (pow2 1024) (nearest (- p)));
      destruct (Qle_bool (pow2 1024) (nearest q)); try reflexivity.
    cbn [fle]. apply Qle_bool_iff. rewrite !Qred_correct. lra.
  - exfalso. rewrite Hq in Hpq. apply (Qlt_irrefl 0).
    apply Qlt_le_trans with p; assumption.
  - exfalso. apply (Qlt_irrefl 0).
    apply Qlt_le_trans with p; [assumption |].
    apply Qle_trans with q; [assumption | apply Qlt_le_weak; assumption].
  - assert (Hm : nearest p <= nearest q).
    { apply nearest_monotone; assumption. }
    destruct (Qle_bool (pow2 1024) (nearest q)) eqn:Hoq.
    + destruct (Qle_bool (pow2 1024) (nearest p)); reflexivity.
    + destruct (Qle_bool (pow2 1024) (nearest p)) eqn:Hop.
      * exfalso. apply Qle_bool_iff in Hop.
        assert (Hle : Qle_bool (pow2 1024) (nearest q) = true).
        { apply Qle_bool_iff. apply Qle_trans with (nearest p); assumption. }
        rewrite Hle in Hoq. discriminate Hoq.
      * cbn [fle]. apply Qle_bool_iff. rewrite !Qred_correct. exact Hm.
Qed.

Lemma fle_fl_PInf (q : Q) : fle (fl q) PInf = true.
Proof.
  pose proof (fl_not_nan q) as H. destruct (fl q); [reflexivity | | reflexivity | reflexivity].
  exfalso. apply H. reflexivity.
Qed.

Lemma fle_NInf_fl (q : Q) : fle NInf (fl q) = true.
Proof.
  pose proof (fl_not_nan q) as H. destruct (fl q); [reflexivity | | reflexivity | reflexivity].
  exfalso. apply H. reflexivity.
Qed.

Lemma fmul_10000_monotone (a b : float) :
  fle a b = true -> fle (fmul a (Fin 10000)) (fmul b (Fin 10000)) = true.
Proof.
  destruct a as [p | | |], b as [q | | |]; cbn [fle fmul]; intros H;
    try discriminate H; try reflexivity.
  - apply fl_monotone. apply Qle_bool_iff in H.
    apply Qmult_le_compat_r; [exact H | discriminate].
  - apply fle_fl_PInf.
  - apply fle_NInf_fl.
Qed.

Lemma frint_monotone (a b : float) :
  fle a b = true -> fle (frint a) (frint b) = true.
Proof.
  destruct a as [p | | |], b as [q | | |]; cbn [fle frint]; intros H;
    try discriminate H; try reflexivity.
  apply Qle_bool_iff in H. apply Qle_bool_iff.
  rewrite <- Zle_Qle. apply rint_le. exact H.
Qed.

Lemma fdiv_10000_monotone (a b : float) :
  fle a b = true -> fle (fdiv a (Fin 10000)) (fdiv b (Fin 10000)) = true.
Proof.
  destruct a as [p | | |], b as [q | | |]; cbn [fle fdiv]; intros H;
    try discriminate H; try reflexivity.
  - change (10000 ?= 0) with Gt. cbv iota.
    apply fl_monotone. apply Qle_bool_iff in H.
    unfold Qdiv. apply Qmult_le_compat_r; [exact H | discriminate].
  - change (10000 ?= 0) with Gt. cbv iota. apply fle_fl_PInf.
  - change (10000 ?= 0) with Gt. cbv iota. apply fle_NInf_fl.
Qed.

(** [np.round(., 4)] keeps the order: each of its three steps does. *)
Lemma np_round4_le (a b : float) :
  fle a b = true -> fle (np_round4 a) (np_round4 b) = true.
Proof.
  intros H. unfold np_round4.
  apply fdiv_10000_monotone, frint_monotone, fmul_10000_monotone, H.
Qed.

(** Nothing is less than NaN. *)
Lemma flt_nan_r (a : float) : flt a NaN = false.
Proof. destruct a; reflexivity. Qed.

Lemma fle_not_flt (a b : float) : fle a b = true -> flt b a = false.
Proof.
  destruct a as [p | | |], b as [q | | |]; cbn [fle flt]; intros H;
    try discriminate H; try reflexivity.
  unfold Qltb. now rewrite H.
Qed.

Lemma flt_fle_trans (a c b : float) :
  flt a c = true -> fle c b = true -> flt a b = true.
Proof.
  destruct a as [p | | |], c as [r | | |], b as [q | | |]; cbn [fle flt];
    intros H1 H2; try discriminate H1; try discriminate H2; try reflexivity.
  unfold Qltb in *. apply negb_true_iff in H1. apply negb_true_iff.
  apply not_true_iff_false in H1. apply not_true_iff_false.
  rewrite Qle_bool_iff in H1 |- *. apply Qle_bool_iff in H2.
  intros Hqp. apply H1. apply Qle_trans with q; assumption.
Qed.

(** The order does not tell apart two fractions of the same value. *)
Lemma fle_float_eq (a a' b b' : float) :
  float_eq a a' -> float_eq b b' -> fle a b = fle a' b'.
Proof.
  destruct a as [p | | |], a' as [p' | | |]; cbn [float_eq]; intros Ha;
    try contradiction;
    destruct b as [q | | |], b' as [q' | | |]; cbn [float_eq]; intros Hb;
    try contradiction; try reflexivity.
  cbn [fle]. now rewrite Ha, Hb.
Qed.

Lemma float_eq_refl (a : float) : float_eq a a.
Proof. destruct a; cbn; [reflexivity | exact I ..]. Qed.

Lemma ilog2_unique (x : Q) (e : Z) :
  pow2 e <= x -> x < pow2 (e + 1) -> ilog2 x = e.
Proof.
  intros Hlo Hhi.
  assert (Hx : 0 < x) by (apply Qlt_le_trans with (pow2 e); [apply pow2_pos | exact Hlo]).
  destruct (ilog2_spec x Hx) as [H1 H2].
  destruct (Z.lt_trichotomy (ilog2 x) e) as [Hlt | [Heq | Hgt]]; [exfalso | exact Heq | exfalso].
  - apply (Qlt_irrefl x). apply Qlt_le_trans with (pow2 (ilog2 x + 1)); [exact H2|].
    apply Qle_trans with (pow2 e); [apply pow2_le; lia | exact Hlo].
  - apply (Qlt_irrefl x). apply Qlt_le_trans with (pow2 (e + 1)); [exact Hhi|].
    apply Qle_trans with (pow2 (ilog2 x)); [apply pow2_le; lia | exact H1].
Qed.

End Binary64.

(* ===================================================================== *)
(** ** The weights the filter keeps *)
(* ===================================================================== *)

Section Threshold.

Local Open Scope Q_scope.

(** A real number between the two floats around [0.00015] rounds to one
    of them. *)
Lemma nearest_between (q : Q) :
  value_of last_dropped < q -> q < value_of first_kept ->
  nearest q == value_of last_dropped \/ nearest q == value_of first_kept.
Proof.
  intros Hlo Hhi.
  set (q0 := value_of last_dropped) in *. set (q1 := value_of first_kept) in *.
  assert (B0 : pow2 (-13) <= q0) by (vm_compute; discriminate).
  assert (B1 : q1 < pow2 (-13 + 1)) by (vm_compute; reflexivity).
  assert (K0 : q0 * pow2 65 == inject_Z (rint (q0 * pow2 65)))
    by (vm_compute; reflexivity).
  assert (K1 : q1 * pow2 65 == inject_Z (rint (q0 * pow2 65) + 1))
    by (vm_compute; reflexivity).
  assert (V0 : inject_Z (rint (q0 * pow2 65)) * pow2 (-65) == q0)
    by (vm_compute; reflexivity).
  assert (V1 : inject_Z (rint (q0 * pow2 65) + 1) * pow2 (-65) == q1)
    by (vm_compute; reflexivity).
  assert (He : ilog2 q = (-13)%Z).
  { apply ilog2_unique.
    - apply Qle_trans with q0; [exact B0 | apply Qlt_le_weak, Hlo].
    - apply Qlt_trans with q1; assumption. }
  unfold nearest, ulp_exponent. rewrite He.
  change (Z.max (-13 - 52) (-1074)) with (-65)%Z. change (- -65)%Z with 65%Z.
  set (k := rint (q0 * pow2 65)) in *.
  assert (Hk0 : (k <= rint (q * pow2 65))%Z).
  { rewrite <- (rint_eq _ _ K0). apply rint_le.
    apply Qmult_le_compat_r; [apply Qlt_le_weak, Hlo | apply Qlt_le_weak, pow2_pos]. }
  assert (Hk1 : (rint (q * pow2 65) <= k + 1)%Z).
  { rewrite <- (rint_eq _ _ K1). apply rint_le.
    apply Qmult_le_compat_r; [apply Qlt_le_weak, Hhi | apply Qlt_le_weak, pow2_pos]. }
  assert (Hr : rint (q * pow2 65) = k \/ rint (q * pow2 65) = (k + 1)%Z) by lia.
  destruct Hr as [-> | ->]; [left; exact V0 | right; exact V1].
Qed.

(** Every float other than NaN is at most the float nearest to [0.00015]
    or at least the next one: the two are neighbours. *)
Lemma rounded_weight_sides (w : float) :
  is_rounded w -> fle w last_dropped = true \/ fle first_kept w = true.
Proof.
  intros [q Hw].
  rewrite <- (fle_float_eq _ _ _ _ Hw (float_eq_refl last_dropped)).
  rewrite <- (fle_float_eq _ _ _ _ (float_eq_refl first_kept) Hw).
  clear w Hw.
  set (q0 := value_of last_dropped). set (q1 := value_of first_kept).
  assert (E0 : fl q0 = last_dropped) by (vm_compute; reflexivity).
  assert (E1 : fl q1 = first_kept) by (vm_compute; reflexivity).
  assert (F0 : last_dropped = Fin q0) by (vm_compute; reflexivity).
  assert (F1 : first_kept = Fin q1) by (vm_compute; reflexivity).
  assert (P0 : 0 < q0) by (vm_compute; reflexivity).
  assert (T1 : q1 < pow2 1024) by (vm_compute; reflexivity).
  assert (L01 : q0 <= q1) by (vm_compute; discriminate).
  destruct (Qlt_le_dec q0 q) as [Hlo | Hle].
  2:{ left. rewrite <- E0. apply fl_monotone. exact Hle. }
  destruct (Qlt_le_dec q q1) as [Hhi | Hge].
  2:{ right. rewrite <- E1. apply fl_monotone. exact Hge. }
  assert (Hpos : (q ?= 0) = Gt).
  { apply Qgt_alt. apply Qlt_trans with q0; assumption. }
  assert (Hv : nearest q <= q1).
  { destruct (nearest_between q Hlo Hhi) as [H | H]; rewrite H;
      [exact L01 | apply Qle_refl]. }
  assert (Hfin : Qle_bool (pow2 1024) (nearest q) = false).
  { apply not_true_iff_false. rewrite Qle_bool_iff. intros Hbig.
    apply (Qlt_irrefl q1). apply Qlt_le_trans with (pow2 1024); [exact T1|].
    apply Qle_trans with (nearest q); assumption. }
  unfold fl. rewrite Hpos. cbv zeta. rewrite Hfin, F0, F1. cbn [fle].
  destruct (nearest_between q Hlo Hhi) as [H | H].
  - left. apply Qle_bool_iff. rewrite Qred_correct, H. apply Qle_refl.
  - right. apply Qle_bool_iff. rewrite Qred_correct, H. apply Qle_refl.
Qed.

(** A weight up to the float nearest to [0.00015] rounds to at most
    [0.0001] and is dropped. *)
Lemma dropped_up_to (w : float) :
  fle w last_dropped = true -> fgt (np_round4 w) small_weight = false.
Proof.
  intros Hw. unfold fgt. apply fle_not_flt.
  replace small_weight with (np_round4 last_dropped) by (vm_compute; reflexivity).
  now apply np_round4_le.
Qed.

(** A weight from the next float on rounds to at least [0.0002] and is
    kept. *)
Lemma kept_from (w : float) :
  fle first_kept w = true -> fgt (np_round4 w) small_weight = true.
Proof.
  intros Hw. unfold fgt.
  apply flt_fle_trans with (np_round4 first_kept);
    [vm_compute; reflexivity | now apply np_round4_le].
Qed.

End Threshold.

(* ===================================================================== *)
(** ** The post-processing of a converged result *)
(* ===================================================================== *)

Section PostProcessing.

Context {RT : Runtime}.

Lemma dict_set_fresh (d : dict) (k : string) (v : float) :
  ~ In k (dict_keys d) -> dict_set d k v = (d ++ [(k, v)])%list.
Proof.
  induction d as [|[k' v'] d IH]; intros Hk; cbn.
  - reflexivity.
  - destruct (String.eqb_spec k' k) as [->|Hne].
    + exfalso. apply Hk. now left.
    + rewrite IH; [reflexivity|]. intros Hin. apply Hk. now right.
Qed.

Lemma combine_keys_nodup (tickers : list string) (ws : list float) :
  NoDup tickers -> NoDup (map fst (combine tickers ws)).
Proof.
  intros Hnd. revert ws. induction Hnd as [|t ts Ht Hnd IH]; intros ws.
  - constructor.
  - destruct ws as [|w ws]; cbn; constructor.
    + intros Hin. apply Ht. apply in_map_iff in Hin.
      destruct Hin as ([t' w'] & <- & Hin). now apply in_combine_l in Hin.
    + apply IH.
Qed.

Lemma comprehension_as_filter (l : dict) (acc : dict) :
  NoDup (map fst l) ->
  (forall k, In k (map fst l) -> ~ In k (dict_keys acc)) ->
  fold_left
    (fun (d : dict) (tw : string * float) =>
       let (ticker, weight) := tw in
       if fgt weight small_weight then dict_set d ticker weight else d)
    l acc
  = (acc ++ filter (fun tw => fgt (snd tw) small_weight) l)%list.
Proof.
  revert acc. induction l as [|[t w] l IH]; intros acc Hnd Hfresh.
  - cbn. now rewrite app_nil_r.
  - cbn [fold_left filter snd]. inversion Hnd as [|? ? Ht Hnd']; subst.
    destruct (fgt w small_weight).
    + rewrite dict_set_fresh by (apply Hfresh; now left).
      rewrite IH; [now rewrite <- app_assoc|assumption|].
      intros k Hk Hin. unfold dict_keys in Hin. rewrite map_app in Hin.
      apply in_app_or in Hin. destruct Hin as [Hin|[<-|[]]].
      * apply (Hfresh k); [now right | exact Hin].
      * apply Ht. exact Hk.
    + apply IH; [assumption|]. intros k Hk. apply Hfresh. now right.
Qed.

(** With distinct column labels the dict comprehension is the filtered
    pairing of labels and rounded weights. *)
Lemma optimal_portfolio_nodup (tickers : list string) (ws : list float) :
  NoDup tickers -> optimal_portfolio_of tickers ws = retained_entries tickers ws.
Proof.
  intros Hnd. unfold optimal_portfolio_of, retained_entries.
  rewrite comprehension_as_filter; [reflexivity| |].
  - now apply combine_keys_nodup.
  - intros k _ [].
Qed.

Lemma dict_set_known (d : dict) (k : string) (v : float) :
  In k (dict_keys d) -> dict_keys (dict_set d k v) = dict_keys d.
Proof.
  induction d as [|[k' v'] d IH]; intros Hk; cbn in *; [contradiction|].
  destruct (String.eqb_spec k' k) as [->|Hne]; [reflexivity|].
  cbn. f_equal. apply IH. destruct Hk as [Hk|Hk]; [congruence | exact Hk].
Qed.

Lemma dict_set_keys (d : dict) (k : string) (v : float) :
  dict_keys (dict_set d k v) = dict_keys d \/
  (~ In k (dict_keys d) /\ dict_keys (dict_set d k v) = (dict_keys d ++ [k])%list).
Proof.
  destruct (in_dec string_dec k (dict_keys d)) as [Hin|Hout].
  - left. now apply dict_set_known.
  - right. split; [exact Hout|]. rewrite dict_set_fresh by exact Hout.
    unfold dict_keys. now rewrite map_app.
Qed.

Lemma dict_set_entries (d : dict) (k : string) (v : float) (kv : string * float) :
  In kv (dict_set d k v) -> kv = (k, v) \/ In kv d.
Proof.
  induction d as [|[k' v'] d IH]; cbn.
  - intros [<-|[]]. now left.
  - destruct (String.eqb_spec k' k) as [->|Hne]; cbn.
    + intros [<-|H]; [now left | right; now right].
    + intros [<-|H]; [right; now left|].
      destruct (IH H) as [->|H']; [now left | right; now right].
Qed.

Lemma dict_set_nodup (d : dict) (k : string) (v : float) :
  NoDup (dict_keys d) -> NoDup (dict_keys (dict_set d k v)).
Proof.
  intros Hnd. destruct (dict_set_keys d k v) as [->|[Hout ->]]; [exact Hnd|].
  apply NoDup_app; [exact Hnd | repeat constructor; intros [] |].
  intros x Hx [<-|[]]. contradiction.
Qed.

Lemma dict_set_size (d : dict) (k : string) (v : float) :
  (List.length (dict_set d k v) <= S (List.length d))%nat.
Proof.
  induction d as [|[k' v'] d IH]; cbn; [lia|].
  destruct (String.eqb k' k); cbn; lia.
Qed.

(** What the dict comprehension keeps of a list of pairs, from any
    starting dict. *)
Lemma comprehension_invariant (P : string * float -> Prop) (l : dict) (acc : dict) :
  NoDup (dict_keys acc) ->
  Forall P acc ->
  (forall tw, In tw l -> fgt (snd tw) small_weight = true -> P tw) ->
  let d := fold_left
             (fun (d : dict) (tw : string * float) =>
                let (ticker, weight) := tw in
                if fgt weight small_weight then dict_set d ticker weight else d)
             l acc in
  NoDup (dict_keys d) /\
  Forall P d /\
  (forall k, In k (dict_keys d) -> In k (dict_keys acc) \/ In k (map fst l)) /\
  (List.length d <= List.length acc + List.length l)%nat.
Proof.
  revert acc. induction l as [|[t w] l IH]; intros acc Hnd Hall Hkeep; cbn zeta.
  - cbn. repeat split; trivial; [intros k Hk; now left | lia].
  - cbn [fold_left].
    assert (Hkeep' : forall tw, In tw l -> fgt (snd tw) small_weight = true -> P tw).
    { intros tw Hin. apply Hkeep. now right. }
    destruct (fgt w small_weight) eqn:Hw.
    + assert (Hall' : Forall P (dict_set acc t w)).
      { apply Forall_forall. intros kv Hin.
        destruct (dict_set_entries acc t w kv Hin) as [->|Hold].
        - apply Hkeep; [now left | exact Hw].
        - rewrite Forall_forall in Hall. now apply Hall. }
      destruct (IH (dict_set acc t w) (dict_set_nodup acc t w Hnd) Hall' Hkeep')
        as (H1 & H2 & H3 & H4).
      repeat split; trivial.
      * intros k Hk. destruct (H3 k Hk) as [Hacc|Hl]; [|right; now right].
        destruct (dict_set_keys acc t w) as [E|[_ E]]; rewrite E in Hacc.
        -- now left.
        -- apply in_app_or in Hacc. destruct Hacc as [Hacc|[<-|[]]];
             [now left | right; now left].
      * pose proof (dict_set_size acc t w). cbn [List.length]. lia.
    + destruct (IH acc Hnd Hall Hkeep') as (H1 & H2 & H3 & H4).
      repeat split; trivial.
      * intros k Hk. destruct (H3 k Hk) as [Hacc|Hl]; [now left | right; now right].
      * cbn [List.length]. lia.
Qed.

(** C4 (amended).  For a converged solver result on a frame with distinct
    column labels, the function returns the column labels paired, in column
    order, with the weights rounded by [np.round(., 4)], keeping exactly the
    entries whose rounded weight is greater than [0.0001].  In terms of the
    weight before rounding: a weight up to the float nearest to [0.00015]
    is dropped, a weight from the next float on is kept, every float other
    than NaN is one or the other, and NaN is dropped; a weight equal to
    [0.0001] rounds to itself and is dropped.  After the solver call the
    only event is a warning, written when the test
    [abs(weight_sum - 1.0) > 0.01] holds of the sum of the kept weights; the
    returned map is the same with and without it. *)
Theorem converged_result_post_processed (df : DataFrame) (rl mw : float)
    mean cov r :
  df_mean df = Ok mean ->
  df_cov df = Ok cov ->
  columns df <> [] ->
  NoDup (columns df) ->
  minimize (problem_of mean cov df rl mw) = Ok r ->
  res_success r = true ->
  let d := retained_entries (columns df) (res_x r) in
  optimize_markowitz_portfolio df rl mw
  = ((EvMinimize (problem_of mean cov df rl mw)
      :: (if not_close_to_one (weight_sum_of d) then
            [EvLog WARNING ("Sum of weights (" ++ str_weight_sum d
                            ++ ") is not close to 1.")]
          else []))%list,
     Ok d) /\
  (forall w, fle w last_dropped = true ->
             fgt (np_round4 w) small_weight = false) /\
  (forall w, fle first_kept w = true ->
             fgt (np_round4 w) small_weight = true) /\
  (forall w, is_rounded w ->
             fle w last_dropped = true \/ fle first_kept w = true) /\
  fgt (np_round4 NaN) small_weight = false /\
  np_round4 small_weight = small_weight /\
  fgt (np_round4 small_weight) small_weight = false.
Proof.
  intros Hm Hc Hn Hnd Hsol Hok d.
  split; [|split; [exact dropped_up_to | split; [exact kept_from |
           split; [exact rounded_weight_sides | ]]]].
  - rewrite (markowitz_run df rl mw mean cov Hm Hc Hn).
    unfold after_solver. rewrite Hsol, Hok.
    rewrite (optimal_portfolio_nodup _ _ Hnd). reflexivity.
  - split; [reflexivity|]. split; vm_compute; reflexivity.
Qed.

End PostProcessing.

(** C4, as stated, fails: the weight [0.0001] of the second asset, equal to
    the threshold, is dropped from the returned map. *)
Lemma weight_equal_to_threshold_dropped :
  @minimize Demo.winner
    (@problem_of Demo.winner (Demo.frame_mean Demo.winner_frame)
       (Demo.frame_cov Demo.winner_frame) Demo.winner_frame
       (Fin 1) (fl (9999 # 10000)))
  = Ok {| res_x := [fl (9999 # 10000); fl (1 # 10000)];
          res_success := true;
          res_message := "Optimization terminated successfully" |} /\
  np_round4 (fl (1 # 10000)) = fl (1 # 10000) /\
  fle small_weight (np_round4 (fl (1 # 10000))) = true /\
  outcome (@optimize_markowitz_portfolio Demo.winner Demo.winner_frame
             (Fin 1) (fl (9999 # 10000)))
  = Ok [("A0", fl (9999 # 10000))].
Proof.
  split; [reflexivity|]. split; [vm_compute; reflexivity|].
  split; [vm_compute; reflexivity|].
  vm_compute. reflexivity.
Qed.

(** The two floats around [0.00015], to 25 decimals, and what becomes of
    them: the lower one, which is the literal [0.00015], rounds to [0.0001]
    and is dropped; the upper one rounds to [0.0002] and is kept. *)
Example floats_around_the_threshold :
  (Qnum (value_of last_dropped * 10 ^ 25) / Z.pos (Qden (value_of last_dropped * 10 ^ 25))
   = 1499999999999999868594)%Z /\
  (Qnum (value_of first_kept * 10 ^ 25) / Z.pos (Qden (value_of first_kept * 10 ^ 25))
   = 1500000000000000139645)%Z /\
  np_round4 last_dropped = fl (1 # 10000) /\
  np_round4 first_kept = fl (2 # 10000).
Proof.
  split; [vm_compute; reflexivity|]. split; [vm_compute; reflexivity|].
  split; vm_compute; reflexivity.
Qed.

(** With 220 assets that never move, every returned weight is [0.0045] and
    the warning is logged: added from left to right the weights sum to less
    than the float [0.99], and even for a sum of exactly that float the
    rounded difference with [1.0] exceeds the literal [0.01]. *)
Example warning_at_220_flat_assets :
  last (fst (Demo.run (@optimize_portfolio Demo.flat220 Demo.upload (Fin 1) (Fin 1))))
       Demo.SFileRead
  = Demo.SLog WARNING "Sum of weights (<float>) is not close to 1." /\
  outcome (@optimize_portfolio Demo.flat220 Demo.upload (Fin 1) (Fin 1))
  = Ok [("optimal_portfolio",
         map (fun t => (t, fl (45 # 10000))) (Demo.tickers 220))] /\
  flt (Demo.sequential_sum (repeat (fl (45 # 10000)) 220)) (fl (99 # 100))
  = true /\
  not_close_to_one (fl (99 # 100)) = true.
Proof.
  split; [vm_compute; reflexivity|]. split; [vm_compute; reflexivity|].
  split; vm_compute; reflexivity.
Qed.

Lemma converged_result_post_processed_witness :
  let df := Demo.winner_frame in
  let p := @problem_of Demo.winner (Demo.frame_mean df) (Demo.frame_cov df) df
             (Fin 1) (fl (9999 # 10000)) in
  let d := retained_entries (columns df) [fl (9999 # 10000); fl (1 # 10000)] in
  @optimize_markowitz_portfolio Demo.winner df (Fin 1) (fl (9999 # 10000))
  = ((EvMinimize p
      :: (if not_close_to_one (@weight_sum_of Demo.winner d) then
            [EvLog WARNING ("Sum of weights (" ++ @str_weight_sum Demo.winner d
                            ++ ") is not close to 1.")]
          else []))%list,
     Ok d) /\
  (forall w, fle w last_dropped = true ->
             fgt (np_round4 w) small_weight = false) /\
  (forall w, fle first_kept w = true ->
             fgt (np_round4 w) small_weight = true) /\
  (forall w, is_rounded w ->
             fle w last_dropped = true \/ fle first_kept w = true) /\
  fgt (np_round4 NaN) small_weight = false /\
  np_round4 small_weight = small_weight /\
  fgt (np_round4 small_weight) small_weight = false.
Proof.
  apply (@converged_result_post_processed Demo.winner Demo.winner_frame
           (Fin 1) (fl (9999 # 10000))
           (Demo.frame_mean Demo.winner_frame)
           (Demo.frame_cov Demo.winner_frame)
           {| res_x := [fl (9999 # 10000); fl (1 # 10000)];
              res_success := true;
              res_message := "Optimization terminated successfully" |}).
  - reflexivity.
  - reflexivity.
  - discriminate.
  - vm_compute. repeat constructor; cbn; intuition discriminate.
  - reflexivity.
  - reflexivity.
Defined.

(* ===================================================================== *)
(** ** The returned weights *)
(* ===================================================================== *)

Section Feasibility.

Context {RT : Runtime}.

Local Open Scope Q_scope.

(** What a returned portfolio tells about the run of the function. *)
Lemma markowitz_ok_inv (df : DataFrame) (rl mw : float) (d : dict) :
  outcome (optimize_markowitz_portfolio df rl mw) = Ok d ->
  exists mean cov r,
    df_mean df = Ok mean /\ df_cov df = Ok cov /\ columns df <> [] /\
    minimize (problem_of mean cov df rl mw) = Ok r /\
    res_success r = true /\
    d = optimal_portfolio_of (columns df) (res_x r).
Proof.
  intros Hout.
  destruct (df_mean df) as [mean|e1] eqn:Hm.
  2:{ unfold optimize_markowitz_portfolio in Hout. rewrite Hm in Hout.
      discriminate Hout. }
  destruct (df_cov df) as [cov|e2] eqn:Hc.
  2:{ unfold optimize_markowitz_portfolio in Hout. rewrite Hm, Hc in Hout.
      discriminate Hout. }
  destruct (columns df) as [|c cs] eqn:Hcols.
  { unfold optimize_markowitz_portfolio in Hout. rewrite Hm, Hc, Hcols in Hout.
    discriminate Hout. }
  assert (Hne : columns df <> []) by (rewrite Hcols; discriminate).
  rewrite (markowitz_run df rl mw mean cov Hm Hc Hne) in Hout.
  unfold after_solver in Hout. rewrite Hcols in Hout.
  exists mean, cov.
  destruct (minimize (problem_of mean cov df rl mw)) as [r|e] eqn:Hsol;
    [|discriminate Hout].
  exists r. destruct (res_success r) eqn:Hok; [|discriminate Hout].
  cbn [outcome snd] in Hout. inversion Hout.
  repeat split; try reflexivity. discriminate.
Qed.

(** What a response tells about the run of the endpoint. *)
Lemma endpoint_ok_inv (file : string) (rl mw : float) (resp : response) :
  outcome (optimize_portfolio file rl mw) = Ok resp ->
  fle rl (Fin 0) = false /\
  fle mw (Fin 0) || fgt mw (Fin 1) = false /\
  exists s df d,
    decode_utf8 file = Ok s /\ read_csv s = Ok df /\
    all_isreal df = true /\ Nat.ltb (len df) 30 = false /\
    outcome (optimize_markowitz_portfolio df rl mw) = Ok d /\
    resp = [("optimal_portfolio"%string, d)].
Proof.
  intros Hout.
  case_eq (fle rl (Fin 0)); intros H1.
  { unfold optimize_portfolio in Hout. rewrite H1 in Hout. discriminate Hout. }
  case_eq (fle mw (Fin 0) || fgt mw (Fin 1)); intros H2.
  { unfold optimize_portfolio in Hout. rewrite H1, H2 in Hout.
    discriminate Hout. }
  do 2 (split; [reflexivity|]).
  rewrite endpoint_validated in Hout by assumption.
  assert (Htry : outcome (optimize_portfolio_try file rl mw) = Ok resp).
  { destruct (optimize_portfolio_try file rl mw) as [t [a|e]];
      cbn [try_except outcome snd] in *; [exact Hout|].
    destruct (endpoint_handler_raises e) as (c & dt & Hh).
    destruct (endpoint_handler e) as [t' r']. cbn [outcome snd] in *.
    rewrite Hh in Hout. discriminate Hout. }
  clear Hout.
  case_eq (decode_utf8 file); [intros s Hd | intros e Hd].
  2:{ unfold optimize_portfolio_try, file_read, emit in Htry.
      cbn [bind ret app] in Htry. rewrite Hd in Htry. discriminate Htry. }
  case_eq (read_csv s); [intros df Hr | intros e Hr].
  2:{ unfold optimize_portfolio_try, file_read, emit in Htry.
      cbn [bind ret app] in Htry. rewrite Hd in Htry.
      cbn [lift bind app] in Htry. rewrite Hr in Htry. discriminate Htry. }
  rewrite (try_parsed file rl mw s df Hd Hr) in Htry. unfold try_run in Htry.
  exists s, df.
  destruct (all_isreal df); cbn [negb] in Htry; [|discriminate Htry].
  destruct (Nat.ltb (len df) 30); [discriminate Htry|].
  destruct (optimize_markowitz_portfolio df rl mw) as [t [d|e]];
    cbn [outcome snd] in *; [|discriminate Htry].
  exists d. inversion Htry. repeat split; first [assumption | reflexivity].
Qed.

(** A validated weight bound is a finite number or NaN. *)
Lemma validated_bound (mw : float) :
  fle mw (Fin 0) || fgt mw (Fin 1) = false ->
  mw = NaN \/ exists cap, mw = Fin cap /\ 0 < cap <= 1.
Proof.
  intros H. apply orb_false_iff in H. destruct H as [H0 H1].
  destruct mw as [q| | |]; cbn in H0, H1; try discriminate; [|now left].
  right. exists q. split; [reflexivity|].
  unfold Qltb in H1. apply negb_false_iff, Qle_bool_iff in H1.
  apply not_true_iff_false in H0. rewrite Qle_bool_iff in H0. lra.
Qed.






End Feasibility.


(** More on rounding above the bound: with the bound [0.66666] reached by
    the first asset, the returned weight is [0.6667]; the float [0.12355],
    whose product with [10**4] rounds to the tie [1235.5], is rounded to
    [0.1236], more than [0.00005] above it. *)
Example rounding_can_exceed_bound :
  outcome (@optimize_portfolio Demo.capped Demo.upload (Fin 1)
             (fl (66666 # 100000)))
  = Ok [("optimal_portfolio",
         [("A0", fl (6667 # 10000)); ("A1", fl (3333 # 10000))])] /\
  fle (fl (6667 # 10000)) (fl (66666 # 100000)) = false /\
  np_round4 (fl (12355 # 100000)) = fl (1236 # 10000) /\
  Qltb (value_of (fl (12355 # 100000)) + (5 # 100000))
       (value_of (fl (1236 # 10000))) = true.
Proof.
  split; [vm_compute; reflexivity|]. split; [vm_compute; reflexivity|].
  split; vm_compute; reflexivity.
Qed.



(* ===================================================================== *)
(** ** Further properties of the endpoint *)
(* ===================================================================== *)

Section Endpoint.

Context {RT : Runtime}.

Lemma endpoint_rejected (file : string) (rl mw : float) :
  accepted rl mw = false ->
  exists detail, optimize_portfolio file rl mw = ([], Raise (HTTPException 400 detail)).
Proof.
  unfold accepted, optimize_portfolio. intros H.
  destruct (fle rl (Fin 0)); [eexists; reflexivity|].
  destruct (fle mw (Fin 0) || fgt mw (Fin 1)); [eexists; reflexivity|].
  discriminate H.
Qed.

Lemma endpoint_accepted (file : string) (rl mw : float) :
  accepted rl mw = true ->
  optimize_portfolio file rl mw
  = try_except (optimize_portfolio_try file rl mw) endpoint_handler.
Proof.
  unfold accepted. intros H. apply andb_true_iff in H. destruct H as [H1 H2].
  apply negb_true_iff in H1. apply negb_true_iff in H2.
  now apply endpoint_validated.
Qed.

(** The run of the endpoint when the upload cannot be loaded. *)
Lemma load_failure_run (file : string) (rl mw : float) (e : exn) :
  accepted rl mw = true ->
  load_fails file e ->
  optimize_portfolio file rl mw
  = ((EvFileRead :: trace (endpoint_handler e))%list,
     outcome (endpoint_handler e)).
Proof.
  intros Hacc Hload. rewrite (endpoint_accepted file rl mw Hacc).
  assert (Htry : optimize_portfolio_try file rl mw = ([EvFileRead], Raise e)).
  { unfold optimize_portfolio_try, file_read, emit. cbn [bind ret app].
    destruct Hload as [Hd|(s & Hd & Hr)]; rewrite Hd; cbn [lift bind app];
      [reflexivity|]. rewrite Hr. reflexivity. }
  rewrite Htry. cbn [try_except].
  destruct (endpoint_handler e) as [t r]. reflexivity.
Qed.

(** X2.  When [pd.read_csv] (or the decoding) raises a [ParserError], an
    accepted request fails with status 400 and the fixed detail
    ["Error al parsear el archivo CSV"]: the parser's own message is not
    passed on, nothing is logged and the solver is not called. *)
Theorem parser_error_is_client_error (file : string) (rl mw : float) (msg : string) :
  accepted rl mw = true ->
  load_fails file (ParserError msg) ->
  optimize_portfolio file rl mw
  = ([EvFileRead], Raise (HTTPException 400 "Error al parsear el archivo CSV")).
Proof.
  intros Hacc Hload. now rewrite (load_failure_run file rl mw _ Hacc Hload).
Qed.

(** X3.  When decoding or parsing raises a [ValueError] (a
    [UnicodeDecodeError], pandas' [EmptyDataError]), an accepted request
    fails with status 400 and the message of that error as its detail;
    nothing is logged and the solver is not called. *)
Theorem value_error_while_loading (file : string) (rl mw : float) (msg : string) :
  accepted rl mw = true ->
  load_fails file (ValueError msg) ->
  optimize_portfolio file rl mw = ([EvFileRead], Raise (HTTPException 400 msg)).
Proof.
  intros Hacc Hload. now rewrite (load_failure_run file rl mw _ Hacc Hload).
Qed.

(** X4.  When decoding or parsing raises any other exception, an accepted
    request fails with status 500; the rendering of the exception is logged
    at level ERROR after ["Error inesperado: "] and is the detail after
    ["Error en el servidor: "]. *)
Theorem unexpected_error_while_loading (file : string) (rl mw : float) (e : exn) :
  accepted rl mw = true ->
  load_fails file e ->
  unexpected e = true ->
  optimize_portfolio file rl mw
  = ([EvFileRead; EvLog ERROR ("Error inesperado: " ++ str_exn e)],
     Raise (HTTPException 500 ("Error en el servidor: " ++ str_exn e))).
Proof.
  intros Hacc Hload Hun. rewrite (load_failure_run file rl mw _ Hacc Hload).
  destruct e; try discriminate Hun; reflexivity.
Qed.

Lemma accepted_true (rl mw : float) :
  accepted rl mw = true ->
  fle rl (Fin 0) = false /\ fle mw (Fin 0) || fgt mw (Fin 1) = false.
Proof.
  unfold accepted. intros H. apply andb_true_iff in H. destruct H as [H1 H2].
  now rewrite negb_true_iff in H1, H2.
Qed.

(** The run of the endpoint from the run of the function, on an accepted
    request whose frame passes both data checks. *)
Lemma checked_frame_run (file : string) (rl mw : float) s df :
  accepted rl mw = true ->
  decode_utf8 file = Ok s ->
  read_csv s = Ok df ->
  all_isreal df = true ->
  Nat.ltb (len df) 30 = false ->
  optimize_portfolio file rl mw
  = try_except
      (let (t, r) := optimize_markowitz_portfolio df rl mw in
       ((EvFileRead :: optimizing_record df :: t)%list,
        match r with
        | Ok d => Ok [("optimal_portfolio", d)]
        | Raise e => Raise e
        end))
      endpoint_handler.
Proof.
  intros Hacc Hd Hr Hreal Hlen. destruct (accepted_true rl mw Hacc) as [H1 H2].
  rewrite (endpoint_parsed file rl mw s df H1 H2 Hd Hr).
  unfold try_run. now rewrite Hreal, Hlen.
Qed.

(** X5.  A frame without asset columns that passes the data checks makes
    [1/n_assets] raise [ZeroDivisionError] before the [try] of the function:
    the request fails with status 500 and detail
    ["Error en el servidor: division by zero"], and the solver is not
    called. *)
Theorem no_asset_columns_is_server_error (file : string) (rl mw : float)
    s df mean cov :
  accepted rl mw = true ->
  decode_utf8 file = Ok s ->
  read_csv s = Ok df ->
  all_isreal df = true ->
  Nat.ltb (len df) 30 = false ->
  df_mean df = Ok mean ->
  df_cov df = Ok cov ->
  columns df = [] ->
  optimize_markowitz_portfolio df rl mw
  = ([], Raise (ZeroDivisionError "division by zero")) /\
  optimize_portfolio file rl mw
  = ([EvFileRead; optimizing_record df;
      EvLog ERROR "Error inesperado: division by zero"],
     Raise (HTTPException 500 "Error en el servidor: division by zero")).
Proof.
  intros Hacc Hd Hr Hreal Hlen Hm Hc Hcols.
  assert (Hfun : optimize_markowitz_portfolio df rl mw
                 = ([], Raise (ZeroDivisionError "division by zero"))).
  { unfold optimize_markowitz_portfolio. rewrite Hm, Hc, Hcols. reflexivity. }
  split; [exact Hfun|].
  rewrite (checked_frame_run file rl mw s df Hacc Hd Hr Hreal Hlen), Hfun.
  reflexivity.
Qed.

(** X6.  An exception of [returns_df.mean()] or [returns_df.cov()] leaves
    the function as it is: it is raised before the [try], so it is neither
    logged nor wrapped in ["Failed to optimize portfolio"], and the solver
    is not called.  The endpoint then answers by the class of that
    exception, as its handlers do. *)
Theorem statistics_failure_not_wrapped (file : string) (rl mw : float)
    s df (e : exn) :
  accepted rl mw = true ->
  decode_utf8 file = Ok s ->
  read_csv s = Ok df ->
  all_isreal df = true ->
  Nat.ltb (len df) 30 = false ->
  statistics_fail df e ->
  optimize_markowitz_portfolio df rl mw = ([], Raise e) /\
  optimize_portfolio file rl mw
  = ((EvFileRead :: optimizing_record df :: trace (endpoint_handler e))%list,
     outcome (endpoint_handler e)).
Proof.
  intros Hacc Hd Hr Hreal Hlen Hstat.
  assert (Hfun : optimize_markowitz_portfolio df rl mw = ([], Raise e)).
  { unfold optimize_markowitz_portfolio.
    destruct Hstat as [Hm|(mean & Hm & Hc)]; rewrite Hm; [reflexivity|].
    cbn [lift bind app]. rewrite Hc. reflexivity. }
  split; [exact Hfun|].
  rewrite (checked_frame_run file rl mw s df Hacc Hd Hr Hreal Hlen), Hfun.
  cbn [try_except]. destruct (endpoint_handler e) as [t r]. reflexivity.
Qed.

(** X7.  Once the solver has been called, the function fails only with a
    [ValueError] whose message is ["Failed to optimize portfolio: "]
    followed by the message of what went wrong, and that message is logged
    at level ERROR after ["Error in optimization: "]. *)
Theorem failure_after_solver_call_is_wrapped (df : DataFrame) (rl mw : float)
    args (e : exn) :
  In (EvMinimize args) (trace (optimize_markowitz_portfolio df rl mw)) ->
  outcome (optimize_markowitz_portfolio df rl mw) = Raise e ->
  exists msg,
    e = ValueError ("Failed to optimize portfolio: " ++ msg) /\
    In (EvLog ERROR ("Error in optimization: " ++ msg))
       (trace (optimize_markowitz_portfolio df rl mw)).
Proof.
  intros Hin Hout.
  destruct (markowitz_minimize_inv df rl mw args Hin)
    as (mean & cov & Hm & Hc & Hn & ->).
  rewrite (markowitz_run df rl mw mean cov Hm Hc Hn) in Hout |- *.
  unfold after_solver in Hout |- *.
  destruct (minimize (problem_of mean cov df rl mw)) as [r|e'].
  - destruct (res_success r); cbn [outcome snd trace fst] in *;
      [discriminate Hout|].
    inversion Hout.
    exists ("Portfolio optimization did not converge: " ++ res_message r)%string.
    split; [reflexivity|]. right. right. left. reflexivity.
  - cbn [outcome snd trace fst] in *. inversion Hout.
    exists (str_exn e'). split; [reflexivity|]. right. left. reflexivity.
Qed.

(** X8.  When the solver itself raises an exception, of whatever class, the
    request fails with status 400 and detail
    ["Failed to optimize portfolio: "] followed by the rendering of that
    exception, which is logged at level ERROR. *)
Theorem solver_exception_is_client_error (file : string) (rl mw : float)
    args (e : exn) :
  In (EvMinimize args) (trace (optimize_portfolio file rl mw)) ->
  minimize args = Raise e ->
  outcome (optimize_portfolio file rl mw)
  = Raise (HTTPException 400 ("Failed to optimize portfolio: " ++ str_exn e)) /\
  In (EvLog ERROR ("Error in optimization: " ++ str_exn e))
     (trace (optimize_portfolio file rl mw)).
Proof.
  intros Hin Hsol.
  destruct (endpoint_minimize_inv file rl mw args Hin)
    as (H1 & H2 & s & df & Hd & Hr & Hreal & Hlen & Hin').
  destruct (markowitz_minimize_inv df rl mw args Hin')
    as (mean & cov & Hm & Hc & Hn & ->).
  pose proof (endpoint_run file rl mw s df mean cov H1 H2 Hd Hr Hreal Hlen Hm Hc Hn)
    as Hrun. cbv zeta in Hrun.
  unfold after_solver in Hrun. rewrite Hsol in Hrun.
  cbn [trace fst outcome snd endpoint_answer str_exn] in Hrun.
  rewrite Hrun. cbn [outcome snd trace fst].
  split; [reflexivity|]. right. right. right. left. reflexivity.
Qed.

(** X9.  The endpoint answers with a portfolio only if the parameters were
    accepted, the upload decoded and parsed to a frame that holds no text,
    has at least 30 rows and at least one column, the statistics were
    computed and the solver reported success; the body then has the one key
    ["optimal_portfolio"], holding the post-processed weights of that
    solver result. *)
Theorem response_only_after_converged_run (file : string) (rl mw : float)
    (resp : response) :
  outcome (optimize_portfolio file rl mw) = Ok resp ->
  accepted rl mw = true /\
  exists s df mean cov r,
    decode_utf8 file = Ok s /\
    read_csv s = Ok df /\
    ~ has_text df /\
    (30 <= len df)%nat /\
    columns df <> [] /\
    df_mean df = Ok mean /\
    df_cov df = Ok cov /\
    minimize (problem_of mean cov df rl mw) = Ok r /\
    res_success r = true /\
    resp = [("optimal_portfolio", optimal_portfolio_of (columns df) (res_x r))].
Proof.
  intros Hout.
  destruct (endpoint_ok_inv file rl mw resp Hout)
    as (H1 & H2 & s & df & d & Hd & Hr & Hreal & Hlen & Hfun & ->).
  destruct (markowitz_ok_inv df rl mw d Hfun)
    as (mean & cov & r & Hm & Hc & Hn & Hsol & Hok & ->).
  split; [unfold accepted; now rewrite H1, H2|].
  exists s, df, mean, cov, r. repeat split; trivial.
  - intros Htext. apply all_isreal_false_iff in Htext. congruence.
  - now apply Nat.ltb_ge.
Qed.

Lemma markowitz_trace_shape (df : DataFrame) (rl mw : float) :
  trace (optimize_markowitz_portfolio df rl mw) = [] \/
  exists p logs,
    trace (optimize_markowitz_portfolio df rl mw) = (EvMinimize p :: logs)%list /\
    Forall (fun ev => is_log ev = true) logs.
Proof.
  destruct (df_mean df) as [mean|e1] eqn:Hm.
  2:{ left. unfold optimize_markowitz_portfolio. now rewrite Hm. }
  destruct (df_cov df) as [cov|e2] eqn:Hc.
  2:{ left. unfold optimize_markowitz_portfolio. now rewrite Hm, Hc. }
  destruct (columns df) as [|c cs] eqn:Hcols.
  { left. unfold optimize_markowitz_portfolio. now rewrite Hm, Hc, Hcols. }
  right. rewrite (markowitz_run df rl mw mean cov Hm Hc)
    by (rewrite Hcols; discriminate).
  destruct (after_solver_trace (problem_of mean cov df rl mw) (columns df))
    as (logs & Ht & Hlogs).
  eauto.
Qed.

Lemma endpoint_handler_logs (e : exn) :
  Forall (fun ev => is_log ev = true) (trace (endpoint_handler e)).
Proof.
  destruct e; cbn; repeat constructor.
Qed.

Lemma read_then_logged_app (t logs : list event) :
  read_then_logged t ->
  Forall (fun ev => is_log ev = true) logs ->
  read_then_logged (t ++ logs).
Proof.
  intros [(l & -> & Hl)|(rec & p & l & -> & Hl)] Hlogs.
  - left. exists (l ++ logs)%list. split; [reflexivity|].
    apply Forall_app. now split.
  - right. exists rec, p, (l ++ logs)%list. split; [reflexivity|].
    apply Forall_app. now split.
Qed.

Lemma try_read_then_logged (file : string) (rl mw : float) :
  read_then_logged (trace (optimize_portfolio_try file rl mw)).
Proof.
  destruct (decode_utf8 file) as [s|e] eqn:Hd.
  2:{ unfold optimize_portfolio_try, file_read, emit. cbn [bind ret app].
      rewrite Hd. left. exists []. split; [reflexivity | constructor]. }
  destruct (read_csv s) as [df|e] eqn:Hr.
  2:{ unfold optimize_portfolio_try, file_read, emit. cbn [bind ret app].
      rewrite Hd. cbn [lift bind app]. rewrite Hr.
      left. exists []. split; [reflexivity | constructor]. }
  rewrite (try_parsed file rl mw s df Hd Hr). unfold try_run.
  destruct (all_isreal df); cbn [negb].
  2:{ left. exists []. split; [reflexivity | constructor]. }
  destruct (Nat.ltb (len df) 30).
  { left. exists []. split; [reflexivity | constructor]. }
  destruct (markowitz_trace_shape df rl mw) as [Ht|(p & logs & Ht & Hlogs)];
    destruct (optimize_markowitz_portfolio df rl mw) as [t r];
    cbn [trace fst] in *; subst t.
  - left. eexists. split; [reflexivity|]. repeat constructor.
  - right. eexists _, p, logs. split; [reflexivity | exact Hlogs].
Qed.

Lemma request_course (file : string) (rl mw : float) :
  (accepted rl mw = false /\ trace (optimize_portfolio file rl mw) = []) \/
  (accepted rl mw = true /\
   read_then_logged (trace (optimize_portfolio file rl mw))).
Proof.
  destruct (accepted rl mw) eqn:Hacc.
  - right. split; [reflexivity|].
    rewrite (endpoint_accepted file rl mw Hacc).
    pose proof (try_read_then_logged file rl mw) as Htry.
    destruct (optimize_portfolio_try file rl mw) as [t [a|e]];
      cbn [try_except trace fst] in *; [exact Htry|].
    pose proof (endpoint_handler_logs e) as Hlogs.
    destruct (endpoint_handler e) as [t' r]. cbn [trace fst] in *.
    now apply read_then_logged_app.
  - left. split; [reflexivity|].
    destruct (endpoint_rejected file rl mw Hacc) as (d & ->). reflexivity.
Qed.

(** X10.  The events of a request follow one of three courses.  When a
    parameter is rejected there is none.  Otherwise the upload is read
    first, and either only log records follow, or the [INFO] record, one
    call of the solver and then only log records: the upload is read once
    and the solver is called at most once. *)
Theorem request_events (file : string) (rl mw : float) :
  (accepted rl mw = false /\ trace (optimize_portfolio file rl mw) = []) \/
  (accepted rl mw = true /\
   read_then_logged (trace (optimize_portfolio file rl mw))).
Proof.
  exact (request_course file rl mw).
Qed.

(** X11.  The parameter checks let pass exactly: a risk level that is a
    positive number, [+inf] or NaN, together with a weight bound that is a
    number in (0, 1] or NaN.  For these, and only these, the endpoint goes
    on to read the upload. *)
Theorem parameters_that_pass (file : string) (rl mw : float) :
  (exists t, trace (optimize_portfolio file rl mw) = (EvFileRead :: t)%list)
  <-> passes_risk_check rl /\ passes_weight_check mw.
Proof.
  assert (Hacc : accepted rl mw = true
                 <-> passes_risk_check rl /\ passes_weight_check mw).
  { unfold accepted, passes_risk_check, passes_weight_check.
    rewrite andb_true_iff, !negb_true_iff. split.
    - intros [H1 H2]. split.
      + destruct rl as [q| | |]; cbn in H1; try discriminate; auto.
        right. right. exists q. split; [reflexivity|].
        apply not_true_iff_false in H1. rewrite Qle_bool_iff in H1.
        now apply Qnot_le_lt.
      + destruct (validated_bound mw H2) as [->|(cap & -> & Hcap)];
          [now left | right; now exists cap].
    - intros [H1 H2]. split.
      + destruct H1 as [->|[->|(q & -> & Hq)]]; try reflexivity.
        cbn. apply not_true_iff_false. rewrite Qle_bool_iff.
        now apply Qlt_not_le.
      + destruct H2 as [->|(q & -> & Hq1 & Hq2)]; [reflexivity|].
        cbn. apply orb_false_iff. split.
        * apply not_true_iff_false. rewrite Qle_bool_iff. now apply Qlt_not_le.
        * unfold Qltb. apply negb_false_iff. now apply Qle_bool_iff. }
  rewrite <- Hacc. split.
  - intros [t Ht]. destruct (request_course file rl mw) as [[_ H]|[H _]];
      [rewrite H in Ht; discriminate Ht | exact H].
  - intros H. destruct (request_course file rl mw) as [[H' _]|[_ Hshape]];
      [congruence|].
    destruct Hshape as [(l & -> & _)|(rec & p & l & -> & _)]; eauto.
Qed.


(** X13.  The solver is called only on an accepted request whose upload
    decoded and parsed to a frame that holds no text, has at least 30 rows
    and at least one column and whose statistics were computed; what it is
    called on is the problem built from that frame and the two
    parameters. *)
Theorem solver_called_only_on_checked_frame (file : string) (rl mw : float) args :
  In (EvMinimize args) (trace (optimize_portfolio file rl mw)) ->
  accepted rl mw = true /\
  exists s df mean cov,
    decode_utf8 file = Ok s /\
    read_csv s = Ok df /\
    ~ has_text df /\
    (30 <= len df)%nat /\
    columns df <> [] /\
    df_mean df = Ok mean /\
    df_cov df = Ok cov /\
    args = problem_of mean cov df rl mw.
Proof.
  intros Hin.
  destruct (endpoint_minimize_inv file rl mw args Hin)
    as (H1 & H2 & s & df & Hd & Hr & Hreal & Hlen & Hin').
  destruct (markowitz_minimize_inv df rl mw args Hin')
    as (mean & cov & Hm & Hc & Hn & ->).
  split; [unfold accepted; now rewrite H1, H2|].
  exists s, df, mean, cov. repeat split; trivial.
  - intros Htext. apply all_isreal_false_iff in Htext. congruence.
  - now apply Nat.ltb_ge.
Qed.

End Endpoint.

(* ===================================================================== *)
(** ** Further properties of the returned map *)
(* ===================================================================== *)

Section ReturnedMap.

Context {RT : Runtime}.

(** X14.  Whatever the column labels (repeated ones included) and whatever
    the solver's weights (NaN and infinities included), the returned map
    has pairwise distinct keys, all of them column labels; each of its
    values is greater than 0.0001, so it is never NaN, zero or negative,
    and is one of the solver's weights rounded; and it has at most as many
    entries as there are columns and as there are weights. *)
Theorem returned_map_well_formed (tickers : list string) (ws : list float) :
  let d := optimal_portfolio_of tickers ws in
  NoDup (dict_keys d) /\
  (forall k, In k (dict_keys d) -> In k tickers) /\
  Forall (fun tw => fgt (snd tw) small_weight = true
                    /\ snd tw <> NaN
                    /\ exists w, In w ws /\ snd tw = np_round4 w) d /\
  (List.length d <= Nat.min (List.length tickers) (List.length ws))%nat.
Proof.
  cbn zeta. unfold optimal_portfolio_of.
  destruct (comprehension_invariant
              (fun tw => fgt (snd tw) small_weight = true
                         /\ snd tw <> NaN
                         /\ exists w, In w ws /\ snd tw = np_round4 w)
              (combine tickers (map np_round4 ws)) [])
    as (H1 & H2 & H3 & H4).
  - constructor.
  - constructor.
  - intros [t v] Hin Hv. cbn [snd] in *. split; [exact Hv|]. split.
    + intros ->. unfold fgt in Hv. rewrite flt_nan_r in Hv. discriminate Hv.
    + apply in_combine_r in Hin. apply in_map_iff in Hin.
      destruct Hin as (w & <- & Hw). exists w. split; [exact Hw | reflexivity].
  - repeat split; trivial.
    + intros k Hk. destruct (H3 k Hk) as [[]|Hin].
      apply in_map_iff in Hin. destruct Hin as ([t v] & <- & Hin).
      now apply in_combine_l in Hin.
    + cbn [List.length] in H4. rewrite length_combine, length_map in H4. lia.
Qed.

Lemma nothing_kept (l : dict) :
  Forall (fun tw => fgt (snd tw) small_weight = false) l ->
  fold_left
    (fun (d : dict) (tw : string * float) =>
       let (ticker, weight) := tw in
       if fgt weight small_weight then dict_set d ticker weight else d)
    l []
  = [].
Proof.
  induction 1 as [|[t w] l Hw Hl IH]; [reflexivity|].
  cbn [fold_left snd] in *. now rewrite Hw.
Qed.

(** X15.  When the solver converges on weights that all round to 0.0001 or
    less (or are NaN), the function still succeeds: it returns the empty
    map, after logging the warning
    ["Sum of weights (0) is not close to 1."]. *)
Theorem all_weights_dropped (df : DataFrame) (rl mw : float) mean cov r :
  df_mean df = Ok mean ->
  df_cov df = Ok cov ->
  columns df <> [] ->
  minimize (problem_of mean cov df rl mw) = Ok r ->
  res_success r = true ->
  Forall (fun w => fgt (np_round4 w) small_weight = false) (res_x r) ->
  optimize_markowitz_portfolio df rl mw
  = ([EvMinimize (problem_of mean cov df rl mw);
      EvLog WARNING "Sum of weights (0) is not close to 1."],
     Ok []).
Proof.
  intros Hm Hc Hn Hsol Hok Hdrop.
  rewrite (markowitz_run df rl mw mean cov Hm Hc Hn).
  unfold after_solver. rewrite Hsol, Hok.
  assert (Hempty : optimal_portfolio_of (columns df) (res_x r) = []).
  { unfold optimal_portfolio_of. apply nothing_kept.
    apply Forall_forall. intros [t v] Hin. cbn [snd].
    apply in_combine_r in Hin. apply in_map_iff in Hin.
    destruct Hin as (w & <- & Hw).
    rewrite Forall_forall in Hdrop. now apply Hdrop. }
  rewrite Hempty. reflexivity.
Qed.

End ReturnedMap.

(* ===================================================================== *)
(** ** Further properties of rounding *)
(* ===================================================================== *)

(** X17.  Rounding to 4 decimals keeps the order of the weights: if one
    solver weight is at most another, so are their roundings (neither the
    rounding of the product and of the quotient to binary64 nor ties going
    to the even neighbour ever swaps two values). *)
Theorem np_round4_monotone (a b : float) :
  fle a b = true -> fle (np_round4 a) (np_round4 b) = true.
Proof.
  exact (np_round4_le a b).
Qed.

Lemma np_round4_monotone_witness :
  fle (np_round4 (fl (12345 # 100000))) (np_round4 (fl (12355 # 100000))) = true.
Proof.
  apply (np_round4_monotone (fl (12345 # 100000)) (fl (12355 # 100000))).
  vm_compute. reflexivity.
Defined.

(* ===================================================================== *)
(** ** The further properties on examples *)
(* ===================================================================== *)

Lemma parser_error_is_client_error_witness :
  @optimize_portfolio (Broken.unreadable (ParserError "Error tokenizing data"))
    Demo.upload (Fin 1) (Fin 1)
  = ([EvFileRead], Raise (HTTPException 400 "Error al parsear el archivo CSV")).
Proof.
  apply (@parser_error_is_client_error
           (Broken.unreadable (ParserError "Error tokenizing data"))
           Demo.upload (Fin 1) (Fin 1) "Error tokenizing data").
  - reflexivity.
  - right. exists Demo.upload. split; reflexivity.
Defined.

Lemma value_error_while_loading_witness :
  @optimize_portfolio (Broken.unreadable (ValueError "No columns to parse from file"))
    Demo.upload (Fin 1) (Fin 1)
  = ([EvFileRead], Raise (HTTPException 400 "No columns to parse from file")).
Proof.
  apply (@value_error_while_loading
           (Broken.unreadable (ValueError "No columns to parse from file"))
           Demo.upload (Fin 1) (Fin 1) "No columns to parse from file").
  - reflexivity.
  - right. exists Demo.upload. split; reflexivity.
Defined.

Lemma unexpected_error_while_loading_witness :
  @optimize_portfolio (Broken.unreadable (OtherError "out of memory"))
    Demo.upload (Fin 1) (Fin 1)
  = ([EvFileRead; EvLog ERROR "Error inesperado: out of memory"],
     Raise (HTTPException 500 "Error en el servidor: out of memory")).
Proof.
  apply (@unexpected_error_while_loading
           (Broken.unreadable (OtherError "out of memory"))
           Demo.upload (Fin 1) (Fin 1) (OtherError "out of memory")).
  - reflexivity.
  - right. exists Demo.upload. split; reflexivity.
  - reflexivity.
Defined.

Lemma no_asset_columns_is_server_error_witness :
  let df := Demo.constant_frame 30 0 0 in
  @optimize_markowitz_portfolio Demo.no_assets df (Fin 1) (Fin 1)
  = ([], Raise (ZeroDivisionError "division by zero")) /\
  @optimize_portfolio Demo.no_assets Demo.upload (Fin 1) (Fin 1)
  = ([EvFileRead; optimizing_record df;
      EvLog ERROR "Error inesperado: division by zero"],
     Raise (HTTPException 500 "Error en el servidor: division by zero")).
Proof.
  apply (@no_asset_columns_is_server_error Demo.no_assets Demo.upload
           (Fin 1) (Fin 1) Demo.upload (Demo.constant_frame 30 0 0) [] []);
    reflexivity.
Defined.

Lemma statistics_failure_not_wrapped_witness :
  let e := OtherError "could not convert" in
  let df := Demo.constant_frame 30 2 0 in
  @optimize_markowitz_portfolio (Broken.no_covariance e) df (Fin 1) (Fin 1)
  = ([], Raise e) /\
  @optimize_portfolio (Broken.no_covariance e) Demo.upload (Fin 1) (Fin 1)
  = ((EvFileRead :: optimizing_record df
        :: trace (@endpoint_handler (Broken.no_covariance e) e))%list,
     outcome (@endpoint_handler (Broken.no_covariance e) e)).
Proof.
  apply (@statistics_failure_not_wrapped
           (Broken.no_covariance (OtherError "could not convert"))
           Demo.upload (Fin 1) (Fin 1) Demo.upload (Demo.constant_frame 30 2 0)
           (OtherError "could not convert")); try reflexivity.
  right. exists (Demo.frame_mean (Demo.constant_frame 30 2 0)).
  split; reflexivity.
Defined.

Lemma failure_after_solver_call_is_wrapped_witness :
  let df := Demo.constant_frame 30 2 0 in
  exists msg,
    ValueError (non_convergence_detail "Positive directional derivative for linesearch")
    = ValueError ("Failed to optimize portfolio: " ++ msg) /\
    In (EvLog ERROR ("Error in optimization: " ++ msg))
       (trace (@optimize_markowitz_portfolio Demo.stalled df (Fin 1) (Fin 1))).
Proof.
  set (df := Demo.constant_frame 30 2 0).
  apply (@failure_after_solver_call_is_wrapped Demo.stalled df (Fin 1) (Fin 1)
           (@problem_of Demo.stalled (Demo.frame_mean df) (Demo.frame_cov df) df
              (Fin 1) (Fin 1))).
  - rewrite (@markowitz_run Demo.stalled df (Fin 1) (Fin 1)
               (Demo.frame_mean df) (Demo.frame_cov df));
      try reflexivity; [|discriminate].
    left. reflexivity.
  - rewrite (@markowitz_run Demo.stalled df (Fin 1) (Fin 1)
               (Demo.frame_mean df) (Demo.frame_cov df));
      try reflexivity. discriminate.
Defined.

Lemma solver_exception_is_client_error_witness :
  let RT := Broken.solver_raising (OtherError "singular matrix") in
  outcome (@optimize_portfolio RT Demo.upload (Fin 1) (Fin 1))
  = Raise (HTTPException 400 "Failed to optimize portfolio: singular matrix") /\
  In (EvLog ERROR "Error in optimization: singular matrix")
     (trace (@optimize_portfolio RT Demo.upload (Fin 1) (Fin 1))).
Proof.
  set (RT := Broken.solver_raising (OtherError "singular matrix")).
  set (df := Demo.constant_frame 30 2 0).
  apply (@solver_exception_is_client_error RT Demo.upload (Fin 1) (Fin 1)
           (@problem_of RT (Demo.frame_mean df) (Demo.frame_cov df) df
              (Fin 1) (Fin 1)) (OtherError "singular matrix")).
  - rewrite (@endpoint_run RT Demo.upload (Fin 1) (Fin 1) Demo.upload
               df (Demo.frame_mean df) (Demo.frame_cov df));
      try reflexivity; [|discriminate].
    right. right. left. reflexivity.
  - reflexivity.
Defined.

Lemma response_only_after_converged_run_witness :
  accepted (Fin 1) (Fin 1) = true /\
  exists s df mean cov r,
    @decode_utf8 Demo.flat2 Demo.upload = Ok s /\
    @read_csv Demo.flat2 s = Ok df /\
    ~ has_text df /\
    (30 <= len df)%nat /\
    columns df <> [] /\
    @df_mean Demo.flat2 df = Ok mean /\
    @df_cov Demo.flat2 df = Ok cov /\
    @minimize Demo.flat2 (@problem_of Demo.flat2 mean cov df (Fin 1) (Fin 1)) = Ok r /\
    res_success r = true /\
    [("optimal_portfolio"%string,
      [("A0"%string, Fin (1 # 2)); ("A1"%string, Fin (1 # 2))])]
    = [("optimal_portfolio"%string, optimal_portfolio_of (columns df) (res_x r))].
Proof.
  apply (@response_only_after_converged_run Demo.flat2 Demo.upload (Fin 1) (Fin 1)).
  vm_compute. reflexivity.
Defined.


Lemma solver_called_only_on_checked_frame_witness :
  let df0 := Demo.constant_frame 30 2 0 in
  let args := @problem_of Demo.flat2 (Demo.frame_mean df0) (Demo.frame_cov df0)
                df0 (Fin 1) (Fin 1) in
  accepted (Fin 1) (Fin 1) = true /\
  exists s df mean cov,
    @decode_utf8 Demo.flat2 Demo.upload = Ok s /\
    @read_csv Demo.flat2 s = Ok df /\
    ~ has_text df /\
    (30 <= len df)%nat /\
    columns df <> [] /\
    @df_mean Demo.flat2 df = Ok mean /\
    @df_cov Demo.flat2 df = Ok cov /\
    args = @problem_of Demo.flat2 mean cov df (Fin 1) (Fin 1).
Proof.
  set (df0 := Demo.constant_frame 30 2 0).
  apply (@solver_called_only_on_checked_frame Demo.flat2 Demo.upload (Fin 1) (Fin 1)).
  rewrite (@endpoint_run Demo.flat2 Demo.upload (Fin 1) (Fin 1) Demo.upload
             df0 (Demo.frame_mean df0) (Demo.frame_cov df0));
    try reflexivity; [|discriminate].
  right. right. left. reflexivity.
Defined.

Lemma all_weights_dropped_witness :
  let df := Demo.constant_frame 30 2 0 in
  @optimize_markowitz_portfolio Broken.negligible df (Fin 1) (Fin 1)
  = ([EvMinimize (@problem_of Broken.negligible (Demo.frame_mean df)
                    (Demo.frame_cov df) df (Fin 1) (Fin 1));
      EvLog WARNING "Sum of weights (0) is not close to 1."],
     Ok []).
Proof.
  apply (@all_weights_dropped Broken.negligible (Demo.constant_frame 30 2 0)
           (Fin 1) (Fin 1)
           (Demo.frame_mean (Demo.constant_frame 30 2 0))
           (Demo.frame_cov (Demo.constant_frame 30 2 0))
           {| res_x := [fl (1 # 20000); fl (1 # 20000)];
              res_success := true;
              res_message := "Optimization terminated successfully" |}).
  - reflexivity.
  - reflexivity.
  - discriminate.
  - reflexivity.
  - reflexivity.
  - repeat constructor; vm_compute; reflexivity.
Defined.
